(** * KeepAlive manager of the admin console (src/lib/keepalive-manager.ts)

    A shallow embedding of the [KeepAliveManager] class: its four fields, the
    browser facilities it drives (interval timers, document listeners, the
    promise-reaction queue) and the answers of its collaborators (the auth
    client, the probe query, the logout utilities, the realtime manager).

    Every callback is a computation in a small state/exception/writer monad:
    the state is the [World], an exception is a rejected [await] or a
    collaborator call that throws, and the written output is the list of
    observable [Effect]s, oldest first.

    The page takes one event at a time.  An [async] callback runs to its end
    before the next event is taken, and a promise reaction ([.then]) runs
    once the synchronous body that registered it is over; the overlapping of
    slow callbacks is not represented. *)

From Stdlib Require Import ZArith List String Bool Lia.
Import ListNotations.
Open Scope Z_scope.

Set Implicit Arguments.

(** ** Host values *)

(** [document.visibilityState]; the code only tests it against ['visible']. *)
Inductive Visibility : Type := visible | hidden.

Definition Visibility_eqb (a b : Visibility) : bool :=
  match a, b with
  | visible, visible | hidden, hidden => true
  | _, _ => false
  end.

(** The document events the manager listens to. *)
Inductive DomEvent : Type :=
| mousedown | mousemove | keypress | scroll | touchstart | click
| visibilitychange.

Definition DomEvent_eqb (a b : DomEvent) : bool :=
  match a, b with
  | mousedown, mousedown | mousemove, mousemove | keypress, keypress
  | scroll, scroll | touchstart, touchstart | click, click
  | visibilitychange, visibilitychange => true
  | _, _ => false
  end.

(** Every textual occurrence of [Date.now()] in the file, by its line.  No
    occurrence sits in a loop, so one reading per occurrence describes one run
    of a method or callback. *)
Inductive ClockSite : Type :=
| Line24 | Line63 | Line96 | Line155 | Line166 | Line181 | Line185 | Line186
| Line219 | Line221 | Line228 | Line229 | Line247.

(** ** Collaborators *)

(** The collaborator operations the manager calls.  [getSupabaseClient()]
    only hands out the shared client these operations belong to; it is not
    an operation of its own here. *)
Inductive ExternalCall : Type :=
| getSession | refreshSession | probeQuery | reconnectNow
| importLogoutUtils | performCompleteLogout | forceRedirectToHome.

Definition ExternalCall_eqb (a b : ExternalCall) : bool :=
  match a, b with
  | getSession, getSession | refreshSession, refreshSession
  | probeQuery, probeQuery | reconnectNow, reconnectNow
  | importLogoutUtils, importLogoutUtils
  | performCompleteLogout, performCompleteLogout
  | forceRedirectToHome, forceRedirectToHome => true
  | _, _ => false
  end.

(** How an awaited promise settles. *)
Inductive Settled (A : Type) : Type :=
| Resolved (a : A)
| Rejected.
Arguments Rejected {A}.

(** [session.expires_at] is in seconds; it may be absent. *)
Record Session : Type := { expires_at : option Z }.

(** [{ data: { session }, error }] as [auth.getSession()] resolves it. *)
Record SessionResponse : Type :=
  { session : option Session; session_error : option string }.

(** [{ error }] as [auth.refreshSession()] resolves it. *)
Record RefreshResponse : Type := { refresh_error : option string }.

(** [{ error }] of the probe; an error object may lack a [code]. *)
Record ProbeResponse : Type := { probe_error : option (option string) }.

(** What the collaborators answer during one run of a method or callback.
    [probe] is the query [from('users').select('id').limit(1).single()]:
    [None] when it never settles, [Some (d, r)] when it settles as [r] after
    [d] milliseconds. *)
Record Oracle : Type :=
  { Date_now : ClockSite -> Z;
    getSession_settles : Settled SessionResponse;
    refreshSession_settles : Settled RefreshResponse;
    import_settles : Settled unit;
    logout_settles : Settled unit;
    probe : option (Z * Settled ProbeResponse) }.

(** ** Observable effects *)

Inductive Level : Type := log | warn | error.

Inductive Effect : Type :=
| Console (lvl : Level) (msg : string)
| Call (c : ExternalCall)
| DispatchAppRefresh (reason : string) (hiddenDuration : option Z)
| Uncaught (c : ExternalCall).

(** ** The world: manager fields and browser tables *)

Inductive TimerCallback : Type :=
| AuthRefreshCb
| ConnectionPingCb
| IdleCheckCb (closure : nat).

Definition TimerCallback_eqb (a b : TimerCallback) : bool :=
  match a, b with
  | AuthRefreshCb, AuthRefreshCb | ConnectionPingCb, ConnectionPingCb => true
  | IdleCheckCb c, IdleCheckCb d => Nat.eqb c d
  | _, _ => false
  end.

Record Timer : Type :=
  { timer_id : Z; timer_callback : TimerCallback; timer_ms : Z }.

Inductive ListenerCallback : Type :=
| UpdateActivityCb
| VisibilityCb (closure : nat).

Record Listener : Type :=
  { listens_to : DomEvent; listener_callback : ListenerCallback }.

(** The two locals of one [setupVisibilityRefresh] call, shared by the
    listener and the idle timer that call creates. *)
Record VisibilityLocals : Type :=
  { lastHiddenTime : Z; lastVisibleTime : Z }.

(** A promise reaction waiting for the synchronous body to finish. *)
Inductive Reaction : Type :=
| VisibilityRefreshReaction (o : Oracle)
| IdleRefreshReaction (o : Oracle).

Record World : Type :=
  { authRefreshInterval : option Z;
    connectionPingInterval : option Z;
    lastActivity : Z;
    isActive : bool;
    timers : list Timer;
    next_timer_id : Z;
    listeners : list Listener;
    closures : list VisibilityLocals;
    visibilityState : Visibility;
    reactions : list Reaction }.

Definition set_authRefreshInterval (v : option Z) (w : World) : World :=
  {| authRefreshInterval := v;
     connectionPingInterval := connectionPingInterval w;
     lastActivity := lastActivity w; isActive := isActive w;
     timers := timers w; next_timer_id := next_timer_id w;
     listeners := listeners w; closures := closures w;
     visibilityState := visibilityState w; reactions := reactions w |}.

Definition set_connectionPingInterval (v : option Z) (w : World) : World :=
  {| authRefreshInterval := authRefreshInterval w;
     connectionPingInterval := v;
     lastActivity := lastActivity w; isActive := isActive w;
     timers := timers w; next_timer_id := next_timer_id w;
     listeners := listeners w; closures := closures w;
     visibilityState := visibilityState w; reactions := reactions w |}.

Definition set_lastActivity (v : Z) (w : World) : World :=
  {| authRefreshInterval := authRefreshInterval w;
     connectionPingInterval := connectionPingInterval w;
     lastActivity := v; isActive := isActive w;
     timers := timers w; next_timer_id := next_timer_id w;
     listeners := listeners w; closures := closures w;
     visibilityState := visibilityState w; reactions := reactions w |}.

Definition set_isActive (v : bool) (w : World) : World :=
  {| authRefreshInterval := authRefreshInterval w;
     connectionPingInterval := connectionPingInterval w;
     lastActivity := lastActivity w; isActive := v;
     timers := timers w; next_timer_id := next_timer_id w;
     listeners := listeners w; closures := closures w;
     visibilityState := visibilityState w; reactions := reactions w |}.

Definition set_timers (v : list Timer) (n : Z) (w : World) : World :=
  {| authRefreshInterval := authRefreshInterval w;
     connectionPingInterval := connectionPingInterval w;
     lastActivity := lastActivity w; isActive := isActive w;
     timers := v; next_timer_id := n;
     listeners := listeners w; closures := closures w;
     visibilityState := visibilityState w; reactions := reactions w |}.

Definition set_listeners (v : list Listener) (w : World) : World :=
  {| authRefreshInterval := authRefreshInterval w;
     connectionPingInterval := connectionPingInterval w;
     lastActivity := lastActivity w; isActive := isActive w;
     timers := timers w; next_timer_id := next_timer_id w;
     listeners := v; closures := closures w;
     visibilityState := visibilityState w; reactions := reactions w |}.

Definition set_closures (v : list VisibilityLocals) (w : World) : World :=
  {| authRefreshInterval := authRefreshInterval w;
     connectionPingInterval := connectionPingInterval w;
     lastActivity := lastActivity w; isActive := isActive w;
     timers := timers w; next_timer_id := next_timer_id w;
     listeners := listeners w; closures := v;
     visibilityState := visibilityState w; reactions := reactions w |}.

Definition set_visibilityState (v : Visibility) (w : World) : World :=
  {| authRefreshInterval := authRefreshInterval w;
     connectionPingInterval := connectionPingInterval w;
     lastActivity := lastActivity w; isActive := isActive w;
     timers := timers w; next_timer_id := next_timer_id w;
     listeners := listeners w; closures := closures w;
     visibilityState := v; reactions := reactions w |}.

Definition set_reactions (v : list Reaction) (w : World) : World :=
  {| authRefreshInterval := authRefreshInterval w;
     connectionPingInterval := connectionPingInterval w;
     lastActivity := lastActivity w; isActive := isActive w;
     timers := timers w; next_timer_id := next_timer_id w;
     listeners := listeners w; closures := closures w;
     visibilityState := visibilityState w; reactions := v |}.

(** The page before the module is loaded: the field initialisers of the class
    (lines 13-16) with [loaded_at] the [Date.now()] of line 15, an empty timer
    table whose first handle is 1 (browser handles are positive integers). *)
Definition initial (loaded_at : Z) (v : Visibility) : World :=
  {| authRefreshInterval := None;
     connectionPingInterval := None;
     lastActivity := loaded_at; isActive := false;
     timers := []; next_timer_id := 1;
     listeners := []; closures := [];
     visibilityState := v; reactions := [] |}.

(** ** The monad *)

Inductive Completion (A : Type) : Type :=
| Normal (a : A)
| Throw (c : ExternalCall).
Arguments Throw {A}.

Record Run (A : Type) : Type :=
  { completion : Completion A; after : World; effects : list Effect }.

Definition M (A : Type) : Type := World -> Run A.

Definition ret {A} (a : A) : M A :=
  fun w => {| completion := Normal a; after := w; effects := [] |}.

Definition and_then {A} (es : list Effect) (r : Run A) : Run A :=
  match r with
  | {| completion := c; after := w; effects := es' |} =>
      {| completion := c; after := w; effects := es ++ es' |}
  end.

Definition bind {A B} (m : M A) (k : A -> M B) : M B :=
  fun w =>
    match m w with
    | {| completion := Normal a; after := w'; effects := es |} =>
        and_then es (k a w')
    | {| completion := Throw c; after := w'; effects := es |} =>
        {| completion := Throw c; after := w'; effects := es |}
    end.

Notation "x <- m ;; k" := (bind m (fun x => k))
  (at level 61, m at next level, right associativity).
Notation "m ;; k" := (bind m (fun _ => k))
  (at level 61, right associativity).

(** [try { body } catch (err) { handler }]. *)
Definition try_catch {A} (body : M A) (handler : ExternalCall -> M A) : M A :=
  fun w =>
    match body w with
    | {| completion := Normal a; after := w'; effects := es |} =>
        {| completion := Normal a; after := w'; effects := es |}
    | {| completion := Throw c; after := w'; effects := es |} =>
        and_then es (handler c w')
    end.

Definition emit (e : Effect) : M unit :=
  fun w => {| completion := Normal tt; after := w; effects := [e] |}.

Definition get {A} (f : World -> A) : M A :=
  fun w => {| completion := Normal (f w); after := w; effects := [] |}.

Definition modify (f : World -> World) : M unit :=
  fun w => {| completion := Normal tt; after := f w; effects := [] |}.

(** [console.log], [console.warn], [console.error]: the first argument is
    recorded, without its leading pictograph. *)
Definition console (lvl : Level) (msg : string) : M unit :=
  emit (Console lvl msg).


(** The rest of an [await] whose call was issued earlier: the reaction to a
    promise that is already in flight. *)
Definition settles {A} (c : ExternalCall) (s : Settled A) : M A :=
  match s with
  | Resolved a => ret a
  | Rejected =>
      fun w => {| completion := Throw c; after := w; effects := [] |}
  end.

(** [await c(...)]: the call is issued, then the promise settles; a rejection
    surfaces as an exception at the [await]. *)
Definition await {A} (c : ExternalCall) (s : Settled A) : M A :=
  emit (Call c) ;; settles c s.

(** Modelled from the spec: [realtimeManager.reconnectNow] (module
    ./realtimeManager) and [LogoutUtils.forceRedirectToHome] (module
    @/lib/logout-utils) are not among the sources.  The spec gives them as
    fire-and-forget operations of their collaborators, called for their effect
    only: the call is recorded, it hands nothing back to the caller. *)
Definition signal (c : ExternalCall) : M unit := emit (Call c).

(** [console.x(err)] of a rejection reason; only the first argument of a
    console call is kept, here the reason itself. *)
Definition reason : string := "<reason>".

(** ** Browser facilities *)

(** [setInterval(cb, ms)]: the timer is appended to the table and its fresh
    handle returned. *)
Definition setInterval (cb : TimerCallback) (ms : Z) : M Z :=
  fun w =>
    let id := next_timer_id w in
    {| completion := Normal id;
       after := set_timers
                  (timers w ++
                   [{| timer_id := id; timer_callback := cb; timer_ms := ms |}])
                  (id + 1) w;
       effects := [] |}.

(** [clearInterval(id)]: the timer with that handle, if any, is removed. *)
Definition clearInterval (id : Z) : M unit :=
  modify (fun w =>
    set_timers (filter (fun t => negb (timer_id t =? id)) (timers w))
               (next_timer_id w) w).

(** [document.addEventListener(ev, cb, { passive: true })].  Every call in the
    file passes a closure created by the enclosing call, so no registration is
    ever a duplicate of an earlier one. *)
Definition addEventListener (ev : DomEvent) (cb : ListenerCallback) : M unit :=
  modify (fun w =>
    set_listeners
      (listeners w ++ [{| listens_to := ev; listener_callback := cb |}]) w).

Definition defer (r : Reaction) : M unit :=
  modify (fun w => set_reactions (reactions w ++ [r]) w).

Fixpoint update_nth {A} (n : nat) (f : A -> A) (l : list A) : list A :=
  match l, n with
  | [], _ => []
  | x :: l', O => f x :: l'
  | x :: l', S n' => x :: update_nth n' f l'
  end.

Definition set_lastHiddenTime (c : nat) (v : Z) (w : World) : World :=
  set_closures
    (update_nth c
       (fun l => {| lastHiddenTime := v; lastVisibleTime := lastVisibleTime l |})
       (closures w)) w.

Definition set_lastVisibleTime (c : nat) (v : Z) (w : World) : World :=
  set_closures
    (update_nth c
       (fun l => {| lastHiddenTime := lastHiddenTime l; lastVisibleTime := v |})
       (closures w)) w.

(** ** The session refresher (lines 75-121) *)

(** [session.expires_at ? session.expires_at * 1000 : 0]. *)
Definition expiresAt (s : Session) : Z :=
  match expires_at s with
  | Some e => if e =? 0 then 0 else e * 1000
  | None => 0
  end.

Definition timeUntilExpiry (o : Oracle) (s : Session) : Z :=
  expiresAt s - Date_now o Line96.

(** The test of line 99. *)
Definition needs_refresh (t : Z) : bool :=
  (t <? 5 * 60 * 1000) || (t >? 60 * 60 * 1000).

(** The callback handed to [setInterval] at line 78. *)
Definition authRefreshTick (o : Oracle) : M unit :=
  try_catch
    (r <- await getSession (getSession_settles o) ;;
     match session_error r with
     | Some _ =>
         console warn "KeepAlive: Session refresh error:" ;;
         try_catch
           (_ <- await refreshSession (refreshSession_settles o) ;; ret tt)
           (fun _ => console warn "KeepAlive: Recovery attempt failed:")
     | None =>
         match session r with
         | Some s =>
             if needs_refresh (timeUntilExpiry o s) then
               rr <- await refreshSession (refreshSession_settles o) ;;
               match refresh_error rr with
               | Some _ =>
                   console warn
                     "KeepAlive: Token refresh error, forcing logout:" ;;
                   await importLogoutUtils (import_settles o) ;;
                   await performCompleteLogout (logout_settles o) ;;
                   signal forceRedirectToHome
               | None =>
                   console log "KeepAlive: Session refreshed successfully"
               end
             else ret tt
         | None => console warn "KeepAlive: No active session found"
         end
     end)
    (fun _ => console error "KeepAlive: Auth refresh failed:").

Definition startAuthRefresh : M unit :=
  id <- setInterval AuthRefreshCb (4 * 60 * 1000) ;;
  modify (set_authRefreshInterval (Some id)).

(** ** The connection prober (lines 127-173) *)

Definition TIMEOUT : ProbeResponse :=
  {| probe_error := Some (Some "TIMEOUT"%string) |}.

(** [Promise.race] of the query against the 5000 ms timer of line 148: the
    query wins when it settles before the timer is due. *)
Definition race (q : option (Z * Settled ProbeResponse))
  : Settled ProbeResponse :=
  match q with
  | Some (d, r) => if d <? 5000 then r else Resolved TIMEOUT
  | None => Resolved TIMEOUT
  end.

(** [error.code === c]. *)
Definition code_is (err : option string) (c : string) : bool :=
  match err with
  | Some c' => String.eqb c' c
  | None => false
  end.

(** The callback handed to [setInterval] at line 130. *)
Definition connectionPingTick (o : Oracle) : M unit :=
  try_catch
    (r <- await probeQuery (race (probe o)) ;;
     match probe_error r with
     | Some err =>
         if code_is err "PGRST116" then
           modify (set_lastActivity (Date_now o Line155))
         else if code_is err "TIMEOUT" then
           console warn "KeepAlive: Ping timeout, reconnecting..." ;;
           signal reconnectNow
         else
           console warn "KeepAlive: Connection ping failed, reconnecting..." ;;
           signal reconnectNow
     | None => modify (set_lastActivity (Date_now o Line166))
     end)
    (fun _ =>
       console warn "KeepAlive: Ping error, reconnecting..." ;;
       signal reconnectNow).

Definition startConnectionPing : M unit :=
  id <- setInterval ConnectionPingCb 15000 ;;
  modify (set_connectionPingInterval (Some id)).

(** ** Activity tracking (lines 60-69) *)

Definition updateActivity (o : Oracle) : M unit :=
  modify (set_lastActivity (Date_now o Line63)).

Definition activity_events : list DomEvent :=
  [mousedown; mousemove; keypress; scroll; touchstart; click].

Fixpoint forEach {A} (l : list A) (f : A -> M unit) : M unit :=
  match l with
  | [] => ret tt
  | x :: l' => f x ;; forEach l' f
  end.

Definition setupActivityTracking : M unit :=
  forEach activity_events (fun event => addEventListener event UpdateActivityCb).

(** ** The visibility and idle monitor (lines 179-250) *)

(** The test of line 190. *)
Definition should_recover (hiddenDuration timeSinceLastVisible : Z) : bool :=
  (hiddenDuration >? 1000) || (timeSinceLastVisible >? 60000).

(** The listener of line 183, for the locals of closure [c].  A closure that
    was never allocated has no listener; the [None] branch is there for
    totality only. *)
Definition onVisibilityChange (c : nat) (o : Oracle) : M unit :=
  state <- get visibilityState ;;
  locals <- get (fun w => nth_error (closures w) c) ;;
  match locals with
  | None => ret tt
  | Some l =>
      if Visibility_eqb state visible then
        let hiddenDuration := Date_now o Line185 - lastHiddenTime l in
        let timeSinceLastVisible := Date_now o Line186 - lastVisibleTime l in
        (if should_recover hiddenDuration timeSinceLastVisible then
           console log "KeepAlive: Tab visible after" ;;
           emit (Call getSession) ;;
           defer (VisibilityRefreshReaction o) ;;
           signal reconnectNow ;;
           emit (DispatchAppRefresh "visibility-change" (Some hiddenDuration))
         else ret tt) ;;
        modify (set_lastVisibleTime c (Date_now o Line219))
      else
        modify (set_lastHiddenTime c (Date_now o Line221))
  end.

(** [.then(async ({ data: { session } }) => { ... }).catch(console.error)] of
    lines 195-208. *)
Definition visibilityRefreshReaction (o : Oracle) : M unit :=
  try_catch
    (r <- settles getSession (getSession_settles o) ;;
     match session r with
     | Some _ =>
         rr <- await refreshSession (refreshSession_settles o) ;;
         match refresh_error rr with
         | Some _ =>
             console warn
               "KeepAlive: Visibility refresh token error, forcing logout:" ;;
             await importLogoutUtils (import_settles o) ;;
             await performCompleteLogout (logout_settles o) ;;
             signal forceRedirectToHome
         | None =>
             console log "KeepAlive: Session refreshed on visibility change"
         end
     | None => ret tt
     end)
    (fun _ => console error reason).

(** The callback handed to [setInterval] at line 227.  Line 229 also computes
    [timeSinceVisible] from the closure's [lastVisibleTime]; nothing reads it. *)
Definition idleCheckTick (c : nat) (o : Oracle) : M unit :=
  last <- get lastActivity ;;
  state <- get visibilityState ;;
  let timeSinceActivity := Date_now o Line228 - last in
  if (timeSinceActivity >? 10 * 60 * 1000) && Visibility_eqb state visible then
    console log "KeepAlive: Long idle period detected, refreshing..." ;;
    emit (Call getSession) ;;
    defer (IdleRefreshReaction o) ;;
    emit (DispatchAppRefresh "idle-refresh" None) ;;
    modify (set_lastActivity (Date_now o Line247))
  else ret tt.

(** [.then(async ({ data: { session } }) => { if (session) await
    refreshSession().catch(console.warn) }).catch(console.warn)] of lines
    236-240. *)
Definition idleRefreshReaction (o : Oracle) : M unit :=
  try_catch
    (r <- settles getSession (getSession_settles o) ;;
     match session r with
     | Some _ =>
         try_catch
           (_ <- await refreshSession (refreshSession_settles o) ;; ret tt)
           (fun _ => console warn reason)
     | None => ret tt
     end)
    (fun _ => console warn reason).

Definition setupVisibilityRefresh (o : Oracle) : M unit :=
  c <- get (fun w => List.length (closures w)) ;;
  modify (fun w =>
    set_closures
      (closures w ++
       [{| lastHiddenTime := 0; lastVisibleTime := Date_now o Line181 |}]) w) ;;
  addEventListener visibilitychange (VisibilityCb c) ;;
  _ <- setInterval (IdleCheckCb c) (5 * 60 * 1000) ;;
  ret tt.

(** ** The manager's methods (lines 21-55 and 255-264) *)

Definition start (o : Oracle) : M unit :=
  active <- get isActive ;;
  if active then ret tt
  else
    modify (set_isActive true) ;;
    modify (set_lastActivity (Date_now o Line24)) ;;
    setupActivityTracking ;;
    startAuthRefresh ;;
    startConnectionPing ;;
    setupVisibilityRefresh o ;;
    console log "KeepAlive Manager started".

(** [if (handle)]: a timer handle is a number, falsy only when 0. *)
Definition truthy (h : option Z) : option Z :=
  match h with
  | Some id => if id =? 0 then None else Some id
  | None => None
  end.

Definition stop : M unit :=
  modify (set_isActive false) ;;
  a <- get authRefreshInterval ;;
  match truthy a with
  | Some id => clearInterval id ;; modify (set_authRefreshInterval None)
  | None => ret tt
  end ;;
  p <- get connectionPingInterval ;;
  match truthy p with
  | Some id => clearInterval id ;; modify (set_connectionPingInterval None)
  | None => ret tt
  end ;;
  console log "KeepAlive Manager stopped".

Definition getLastActivity (w : World) : Z := lastActivity w.

Definition getActive (w : World) : bool := isActive w.

(** ** The event loop *)

Definition run_reaction (r : Reaction) : M unit :=
  match r with
  | VisibilityRefreshReaction o => visibilityRefreshReaction o
  | IdleRefreshReaction o => idleRefreshReaction o
  end.

(** The host calls a callback: an exception (or rejection) that leaves the
    callback is reported by the host and goes no further. *)
Definition host_call (m : M unit) : M unit :=
  try_catch m (fun c => emit (Uncaught c)).

(** The reactions registered by the synchronous body run once it is over, in
    registration order. *)
Definition drain : M unit :=
  rs <- get reactions ;;
  modify (set_reactions []) ;;
  forEach rs (fun r => host_call (run_reaction r)).

Definition task (m : M unit) : M unit := host_call m ;; drain.

Definition timer_body (cb : TimerCallback) (o : Oracle) : M unit :=
  match cb with
  | AuthRefreshCb => authRefreshTick o
  | ConnectionPingCb => connectionPingTick o
  | IdleCheckCb c => idleCheckTick c o
  end.

Definition listener_body (cb : ListenerCallback) (o : Oracle) : M unit :=
  match cb with
  | UpdateActivityCb => updateActivity o
  | VisibilityCb c => onVisibilityChange c o
  end.

(** The interval timer with handle [id] comes due. *)
Definition fire (id : Z) (o : Oracle) : M unit :=
  ts <- get timers ;;
  match find (fun t => timer_id t =? id) ts with
  | Some t => task (timer_body (timer_callback t) o)
  | None => ret tt
  end.

(** The document dispatches [ev] to the listeners registered for it, in
    registration order. *)
Definition dispatch (ev : DomEvent) (o : Oracle) : M unit :=
  ls <- get listeners ;;
  forEach (filter (fun l => DomEvent_eqb (listens_to l) ev) ls)
          (fun l => task (listener_body (listener_callback l) o)).

(** What can happen to the page, one at a time.  [call_start] is a call of
    [keepAliveManager.start()], the one the module schedules for itself 2
    seconds after loading (lines 271-276) or any later one; each event comes
    with the answers of the collaborators during the callbacks it runs. *)
Inductive Event : Type :=
| call_start (o : Oracle)
| call_stop
| timer_fires (id : Z) (o : Oracle)
| user_input (ev : DomEvent) (o : Oracle)
| visibility_becomes (v : Visibility) (o : Oracle).

Definition step (e : Event) : M unit :=
  match e with
  | call_start o => start o
  | call_stop => stop
  | timer_fires id o => fire id o
  | user_input ev o => dispatch ev o
  | visibility_becomes v o =>
      modify (set_visibilityState v) ;; dispatch visibilitychange o
  end.

Definition run (es : list Event) : M unit := forEach es step.

(** ** Observations *)

Definition is_call (c : ExternalCall) (e : Effect) : bool :=
  match e with
  | Call c' => ExternalCall_eqb c' c
  | _ => false
  end.

(** How many times [c] was called in a list of effects. *)
Definition calls (c : ExternalCall) (es : list Effect) : nat :=
  List.length (filter (is_call c) es).

Definition is_dispatch (e : Effect) : bool :=
  match e with
  | DispatchAppRefresh _ _ => true
  | _ => false
  end.

(** The [app:refresh] events broadcast in a list of effects. *)
Definition broadcasts (es : list Effect) : list Effect := filter is_dispatch es.

(** The pending interval timers that run callback [cb]. *)
Definition pending (cb : TimerCallback) (w : World) : list Timer :=
  filter (fun t => TimerCallback_eqb (timer_callback t) cb) (timers w).

Definition is_idle_check (t : Timer) : bool :=
  match timer_callback t with
  | IdleCheckCb _ => true
  | _ => false
  end.

Definition is_uncaught (e : Effect) : bool :=
  match e with
  | Uncaught _ => true
  | _ => false
  end.

(** The exceptions the host had to report. *)
Definition uncaught (es : list Effect) : list Effect := filter is_uncaught es.

(** A computation that raises nothing and leaves nothing for the host to
    report. *)
Definition safe {A} (m : M A) : Prop :=
  forall w,
    (exists a, completion (m w) = Normal a) /\ uncaught (effects (m w)) = [].

(** What decides which timers exist and which the manager can still clear. *)
Definition schedule (w : World)
  : option Z * option Z * bool * list Timer * Z * nat * list Listener :=
  (authRefreshInterval w, connectionPingInterval w, isActive w, timers w,
   next_timer_id w, List.length (closures w), listeners w).

Definition keeps_schedule {A} (m : M A) : Prop :=
  forall w, schedule (after (m w)) = schedule w.


(** The timer table agrees with the manager's fields: handles are positive,
    fresh and distinct; while the manager is active its two stored handles name
    the only auth-refresh and the only connection-ping timer; while it is not,
    there is no such timer and nothing is stored; every
    [setupVisibilityRefresh] call has its idle-check timer and its
    visibility listener; the listeners of the input events are the activity
    trackers; an active manager has been through [setupVisibilityRefresh]. *)
Record Inv (w : World) : Prop :=
  { inv_next : 0 < next_timer_id w;
    inv_ids : forall t, In t (timers w) -> 0 < timer_id t < next_timer_id w;
    inv_nodup : NoDup (map timer_id (timers w));
    inv_stored :
      if isActive w then
        (exists a p,
            authRefreshInterval w = Some a /\
            connectionPingInterval w = Some p /\
            pending AuthRefreshCb w =
              [{| timer_id := a; timer_callback := AuthRefreshCb;
                  timer_ms := 240000 |}] /\
            pending ConnectionPingCb w =
              [{| timer_id := p; timer_callback := ConnectionPingCb;
                  timer_ms := 15000 |}])
      else
        (authRefreshInterval w = None /\
         connectionPingInterval w = None /\
         pending AuthRefreshCb w = [] /\
         pending ConnectionPingCb w = []);
    inv_idle :
      (List.length (filter is_idle_check (timers w)) =
       List.length (closures w));
    inv_listeners :
      forall l, In l (listeners w) ->
        listens_to l <> visibilitychange ->
        listener_callback l = UpdateActivityCb;
    inv_handlers :
      forall c, (c < List.length (closures w))%nat ->
        In {| listens_to := visibilitychange;
              listener_callback := VisibilityCb c |} (listeners w);
    inv_started :
      isActive w = true -> (0 < List.length (closures w))%nat }.

(** A property of the world that a computation cannot break. *)
Definition preserves {A} (P : World -> Prop) (m : M A) : Prop :=
  forall w, P w -> P (after (m w)).

(** No visibility listener has recorded a switch to hidden yet. *)
Definition never_hidden (w : World) : Prop :=
  Forall (fun l => lastHiddenTime l = 0) (closures w).

(** The document is visible and no listener has recorded a switch to hidden. *)
Definition shown_never_hidden (w : World) : Prop :=
  visibilityState w = visible /\ never_hidden w.

(** The part of the world the visibility test reads. *)
Definition same_view (w w' : World) : Prop :=
  closures w' = closures w /\ visibilityState w' = visibilityState w.

(** An event that delivers no [visibilitychange] to a hidden document. *)
Definition not_hiding (e : Event) : Prop :=
  match e with
  | visibility_becomes hidden _ => False
  | user_input visibilitychange _ => False
  | _ => True
  end.

(** Neither the logout nor the redirect was called. *)
Definition no_escalation (es : list Effect) : Prop :=
  calls performCompleteLogout es = 0%nat /\
  calls forceRedirectToHome es = 0%nat.

(** [n] rounds of [start()] then [stop()]. *)
Fixpoint cycles (n : nat) (o : Oracle) : list Event :=
  match n with
  | O => []
  | S n' => call_start o :: call_stop :: cycles n' o
  end.

(** The fetch produced a session. *)
Definition session_fetched (o : Oracle) : bool :=
  match getSession_settles o with
  | Resolved r =>
      match session r with
      | Some _ => true
      | None => false
      end
  | Rejected => false
  end.

(** The fetch succeeded with a session that the test of line 99 sends to
    [refreshSession]. *)
Definition due_for_refresh (o : Oracle) : bool :=
  match getSession_settles o with
  | Resolved r =>
      match session_error r, session r with
      | None, Some s => needs_refresh (timeUntilExpiry o s)
      | _, _ => false
      end
  | Rejected => false
  end.

(** [refreshSession] resolved with an error. *)
Definition refresh_reports_error (o : Oracle) : bool :=
  match refreshSession_settles o with
  | Resolved r =>
      match refresh_error r with
      | Some _ => true
      | None => false
      end
  | Rejected => false
  end.

(** ** Sample pages

    A clock that reads [now] throughout one callback and collaborators that
    answer as the fields say; [sample_now] is 2023-11-14T22:13:20Z. *)
Definition sample_now : Z := 1700000000000.

Definition answers (now : Z) (expiry : option Z) (refresh_err : option string)
    (q : option (Z * Settled ProbeResponse)) : Oracle :=
  {| Date_now := fun _ => now;
     getSession_settles :=
       Resolved {| session := Some {| expires_at := expiry |};
                   session_error := None |};
     refreshSession_settles := Resolved {| refresh_error := refresh_err |};
     import_settles := Resolved tt;
     logout_settles := Resolved tt;
     probe := q |}.

(** The session fetch itself reports an error and the refresh is rejected. *)
Definition fetch_fails : Oracle :=
  {| Date_now := fun _ => sample_now;
     getSession_settles :=
       Resolved {| session := None; session_error := Some "fetch"%string |};
     refreshSession_settles := Rejected;
     import_settles := Resolved tt;
     logout_settles := Resolved tt;
     probe := None |}.

(** A session is there and due, the refresh resolves with an error, and the
    logout itself is rejected. *)
Definition logout_fails : Oracle :=
  {| Date_now := fun _ => sample_now;
     getSession_settles :=
       Resolved {| session := Some {| expires_at := None |};
                   session_error := None |};
     refreshSession_settles :=
       Resolved {| refresh_error := Some "invalid"%string |};
     import_settles := Resolved tt;
     logout_settles := Rejected;
     probe := None |}.

(** The tab is hidden at [sample_now] and shown again 65 seconds later, when
    the session's refresh token is no longer valid. *)
Definition tab_hidden : Event :=
  visibility_becomes hidden (answers sample_now None None None).

Definition tab_shown_refresh_invalid : Event :=
  visibility_becomes visible
    (answers (sample_now + 65000) (Some 1700001800)
             (Some "invalid"%string) None).

(** A page on which [start()] has run once. *)
Definition started : World :=
  after (start (answers sample_now None None None)
               (initial sample_now visible)).

(** The session expires 2 minutes, resp. 30 minutes, after [sample_now]. *)
Definition expiring_in_2_minutes : Oracle :=
  answers sample_now (Some 1700000120) None None.

Definition expiring_in_30_minutes : Oracle :=
  answers sample_now (Some 1700001800) None None.

(** The session carries no expiry; the refresh token is no longer valid. *)
Definition no_expiry_refresh_invalid : Oracle :=
  answers sample_now None (Some "invalid"%string) None.

(** The probe never settles. *)
Definition probe_hangs : Oracle := answers sample_now None None None.

(** The started page, hidden at [sample_now] and about to be shown again. *)
Definition shown_again : World :=
  set_visibilityState visible (after (run [tab_hidden] started)).

(** The clock 65 seconds, resp. 11 minutes, after [sample_now]. *)
Definition after_65_seconds : Oracle :=
  answers (sample_now + 65000) (Some 1700001800) None None.

Definition after_11_minutes : Oracle :=
  answers (sample_now + 11 * 60 * 1000) (Some 1700001800) None None.

(** A page loaded in a background tab, on which [start()] has run once. *)
Definition loaded_hidden : list Event :=
  [call_start (answers sample_now None None None)].

(** ** What one start() installs for good *)

(** The seven document listeners one [start()] adds, for the closure [c] its
    [setupVisibilityRefresh] call allocates (lines 61-68 and 183). *)
Definition installed_listeners (c : nat) : list Listener :=
  map (fun ev => {| listens_to := ev; listener_callback := UpdateActivityCb |})
      activity_events ++
  [{| listens_to := visibilitychange; listener_callback := VisibilityCb c |}].

(** The listener table and the idle-check timers are exactly what the
    [start()] calls that took effect installed, in order. *)
Record Installed (w : World) : Prop :=
  { installed_all :
      listeners w =
      flat_map installed_listeners (seq 0 (List.length (closures w)));
    installed_idle :
      map timer_callback (filter is_idle_check (timers w)) =
      map IdleCheckCb (seq 0 (List.length (closures w))) }.

(** A computation that never calls the collaborator operation [c]. *)
Definition never_calls {A} (c : ExternalCall) (m : M A) : Prop :=
  forall w, calls c (effects (m w)) = 0%nat.

(** Any event but a call of [start()]. *)
Definition no_start (e : Event) : Prop :=
  match e with
  | call_start _ => False
  | _ => True
  end.

(** [getSession] resolved with an [error]. *)
Definition fetch_reports_error (o : Oracle) : bool :=
  match getSession_settles o with
  | Resolved r =>
      match session_error r with
      | Some _ => true
      | None => false
      end
  | Rejected => false
  end.

(** Where the probe tick reads the clock when the probe counts as alive: line
    166 with no error, line 155 with the no-rows code; nowhere otherwise. *)
Definition alive_at (o : Oracle) : option ClockSite :=
  match race (probe o) with
  | Resolved r =>
      match probe_error r with
      | None => Some Line166
      | Some err => if code_is err "PGRST116" then Some Line155 else None
      end
  | Rejected => None
  end.

(** The dynamic import of the logout utilities resolved. *)
Definition import_loads (o : Oracle) : bool :=
  match import_settles o with
  | Resolved _ => true
  | Rejected => false
  end.

(** [performCompleteLogout] resolved. *)
Definition logout_completes (o : Oracle) : bool :=
  match logout_settles o with
  | Resolved _ => true
  | Rejected => false
  end.

(** ** More sample answers *)

(** The collaborators 15 seconds after [sample_now], the probe settling as
    [q]. *)
Definition next_probe (q : option (Z * Settled ProbeResponse)) : Oracle :=
  answers (sample_now + 15000) None None q.

(** The query answers after 120 ms without error; after 4999 ms with the
    no-rows code; after 120 ms with a permission error; it is rejected after
    120 ms; it answers without error, but only after 5000 ms. *)
Definition answers_in_time : option (Z * Settled ProbeResponse) :=
  Some (120, Resolved {| probe_error := None |}).



Definition rejected_in_time : option (Z * Settled ProbeResponse) :=
  Some (120, Rejected).


(** The manager is started, stopped and started again, and the tab is then
    hidden at [sample_now]; resp. the manager is started once and the tab
    hidden. *)
Definition restarted_then_hidden : list Event :=
  [call_start probe_hangs; call_stop; call_start probe_hangs; tab_hidden].

Definition started_then_hidden : list Event :=
  [call_start probe_hangs; tab_hidden].

(** The tab is shown 65 seconds after [sample_now]. *)
Definition tab_shown : Event := visibility_becomes visible after_65_seconds.

(** After the probe of [next_probe]: the auth-refresh timer fires, the tab is
    hidden and shown again, all at 65 seconds after [sample_now]; the idle
    check then reads the clock exactly 10 minutes after the probe did. *)
Definition away_for_a_minute : list Event :=
  [timer_fires 1 after_65_seconds;
   visibility_becomes hidden after_65_seconds;
   tab_shown].

Definition ten_minutes_after_probe : Oracle :=
  answers (sample_now + 15000 + 10 * 60 * 1000) None None None.

(** Every clock reading taken while the event is handled is at least [t]. *)
Definition not_before (t : Z) (e : Event) : Prop :=
  match e with
  | call_start o | timer_fires _ o | user_input _ o | visibility_becomes _ o =>
      forall site, t <= Date_now o site
  | call_stop => True
  end.

(** ** A collaborator call that may throw

    The sources do not say whether [realtimeManager.reconnectNow] and
    [LogoutUtils.forceRedirectToHome] can throw.  The callbacks that call
    them are given a second time below, with the way each such call ends as a
    parameter; with every call returning they are the callbacks above. *)

(** How a synchronous call ends. *)
Inductive Ends : Type := Returns | Throws.

(** A synchronous call [c(...)] that ends as [e]: the call is made; when it
    throws, the exception surfaces at the call. *)
Definition invoke (c : ExternalCall) (e : Ends) : M unit :=
  emit (Call c) ;;
  match e with
  | Returns => ret tt
  | Throws => fun w => {| completion := Throw c; after := w; effects := [] |}
  end.

(** The callback of line 78 with [LogoutUtils.forceRedirectToHome] (line 107,
    inside the [try] of line 79) a call that ends as [redirect]. *)
Definition authRefreshTick_when (redirect : Ends) (o : Oracle) : M unit :=
  try_catch
    (r <- await getSession (getSession_settles o) ;;
     match session_error r with
     | Some _ =>
         console warn "KeepAlive: Session refresh error:" ;;
         try_catch
           (_ <- await refreshSession (refreshSession_settles o) ;; ret tt)
           (fun _ => console warn "KeepAlive: Recovery attempt failed:")
     | None =>
         match session r with
         | Some s =>
             if needs_refresh (timeUntilExpiry o s) then
               rr <- await refreshSession (refreshSession_settles o) ;;
               match refresh_error rr with
               | Some _ =>
                   console warn
                     "KeepAlive: Token refresh error, forcing logout:" ;;
                   await importLogoutUtils (import_settles o) ;;
                   await performCompleteLogout (logout_settles o) ;;
                   invoke forceRedirectToHome redirect
               | None =>
                   console log "KeepAlive: Session refreshed successfully"
               end
             else ret tt
         | None => console warn "KeepAlive: No active session found"
         end
     end)
    (fun _ => console error "KeepAlive: Auth refresh failed:").

(** The callback of line 130 with [realtimeManager.reconnectNow] a call that
    may throw.  One run of the callback calls it at most twice: inside the
    [try] (line 158 or 162), and in the [catch] handler (line 170), which no
    [try] encloses.  [in_try] is how the call inside the [try] ends;
    [in_catch] is how the handler's call ends. *)
Definition connectionPingTick_when (in_try in_catch : Ends) (o : Oracle)
  : M unit :=
  try_catch
    (r <- await probeQuery (race (probe o)) ;;
     match probe_error r with
     | Some err =>
         if code_is err "PGRST116" then
           modify (set_lastActivity (Date_now o Line155))
         else if code_is err "TIMEOUT" then
           console warn "KeepAlive: Ping timeout, reconnecting..." ;;
           invoke reconnectNow in_try
         else
           console warn "KeepAlive: Connection ping failed, reconnecting..." ;;
           invoke reconnectNow in_try
     | None => modify (set_lastActivity (Date_now o Line166))
     end)
    (fun _ =>
       console warn "KeepAlive: Ping error, reconnecting..." ;;
       invoke reconnectNow in_catch).

(** The [catch] handler of lines 168-171 runs: the probe was rejected, or the
    [reconnectNow] of line 158 or 162 was reached and threw. *)
Definition handler_runs (in_try : Ends) (o : Oracle) : bool :=
  match race (probe o) with
  | Rejected => true
  | Resolved r =>
      match probe_error r, in_try with
      | Some err, Throws => negb (code_is err "PGRST116")
      | _, _ => false
      end
  end.

(** * Properties *)

(** ** Unfolding a callback *)

Ltac unfold_monad :=
  unfold task, drain, host_call, try_catch, await, settles, signal, console,
    defer, emit, get, modify, bind, and_then, ret in *.

Ltac step_through := unfold_monad; cbn in *.

Lemma and_then_completion {A} (es : list Effect) (r : Run A) :
  completion (and_then es r) = completion r.
Proof. destruct r. reflexivity. Qed.

Lemma and_then_after {A} (es : list Effect) (r : Run A) :
  after (and_then es r) = after r.
Proof. destruct r. reflexivity. Qed.

Lemma and_then_effects {A} (es : list Effect) (r : Run A) :
  effects (and_then es r) = es ++ effects r.
Proof. destruct r. reflexivity. Qed.

Lemma bind_cases {A B} (m : M A) (k : A -> M B) (w : World) :
  match completion (m w) with
  | Normal a => bind m k w = and_then (effects (m w)) (k a (after (m w)))
  | Throw c =>
      bind m k w =
      {| completion := Throw c; after := after (m w); effects := effects (m w) |}
  end.
Proof. unfold bind. destruct (m w) as [[a|c] w' es]; reflexivity. Qed.

Lemma try_catch_cases {A} (m : M A) (h : ExternalCall -> M A) (w : World) :
  match completion (m w) with
  | Normal a => try_catch m h w = m w
  | Throw c => try_catch m h w = and_then (effects (m w)) (h c (after (m w)))
  end.
Proof. unfold try_catch. destruct (m w) as [[a|c] w' es]; reflexivity. Qed.

Lemma needs_refresh_spec (t : Z) :
  needs_refresh t = true <-> t < 300000 \/ t > 3600000.
Proof.
  unfold needs_refresh. rewrite orb_true_iff, Z.ltb_lt, Z.gtb_gt. lia.
Qed.

Lemma should_recover_spec (h v : Z) :
  should_recover h v = true <-> h > 1000 \/ v > 60000.
Proof.
  unfold should_recover. rewrite orb_true_iff, !Z.gtb_gt. tauto.
Qed.

(** ** The session refresher *)

Section AuthRefreshTick.

Variables (o : Oracle) (w : World).

(** What the tick does once the fetch has produced a session: one refresh
    call when the expiry test passes, none otherwise. *)
Lemma refresh_calls_with_session (resp : SessionResponse) (s : Session) :
  getSession_settles o = Resolved resp ->
  session_error resp = None ->
  session resp = Some s ->
  calls refreshSession (effects (authRefreshTick o w)) =
    if needs_refresh (timeUntilExpiry o s) then 1%nat else 0%nat.
Proof.
  intros Hfetch Herr Hs. unfold authRefreshTick. step_through.
  rewrite Hfetch. cbn. rewrite Herr, Hs.
  destruct (needs_refresh (timeUntilExpiry o s)); cbn; [|reflexivity].
  destruct (refreshSession_settles o) as [[[e|]]|]; cbn; [|reflexivity..].
  destruct (import_settles o) as [[]|]; cbn; [|reflexivity].
  destruct (logout_settles o) as [[]|]; reflexivity.
Qed.

End AuthRefreshTick.

(** C3: on a tick whose session fetch succeeds with a session,
    [timeUntilExpiry] is the expiry (in ms) minus the clock reading, and
    [refreshSession] is called (once) exactly when it is below 5 minutes or
    above 60 minutes; 2 minutes to expiry refreshes, 30 minutes does not. *)
Theorem refresh_iff_outside_window
    (o : Oracle) (w : World) (resp : SessionResponse) (s : Session) :
  getSession_settles o = Resolved resp ->
  session_error resp = None ->
  session resp = Some s ->
  let t := timeUntilExpiry o s in
  let n := calls refreshSession (effects (authRefreshTick o w)) in
  t = expiresAt s - Date_now o Line96 /\
  (n = 1%nat <-> t < 5 * 60 * 1000 \/ t > 60 * 60 * 1000) /\
  (n = 0%nat <-> ~ (t < 5 * 60 * 1000 \/ t > 60 * 60 * 1000)) /\
  (t = 2 * 60 * 1000 -> n = 1%nat) /\
  (t = 30 * 60 * 1000 -> n = 0%nat).
Proof.
  intros Hfetch Herr Hs t n.
  assert (Hn : n = if needs_refresh t then 1%nat else 0%nat)
    by (apply refresh_calls_with_session with (resp := resp); assumption).
  pose proof (needs_refresh_spec t) as Hspec.
  split; [reflexivity|].
  destruct (needs_refresh t); rewrite Hn.
  - assert (t < 300000 \/ t > 3600000) by (apply Hspec; reflexivity).
    repeat split; intros; try lia; try discriminate.
  - assert (~ (t < 300000 \/ t > 3600000))
      by (intros H; apply Hspec in H; discriminate).
    repeat split; intros; try lia; try discriminate.
Qed.

(** C9: a fetched session that carries no expiry has expiry 0, so at any
    clock reading after the epoch its [timeUntilExpiry] is negative, below the
    5-minute threshold, and the tick calls [refreshSession]. *)
Theorem absent_expiry_always_refreshes
    (o : Oracle) (w : World) (resp : SessionResponse) (s : Session) :
  getSession_settles o = Resolved resp ->
  session_error resp = None ->
  session resp = Some s ->
  expires_at s = None ->
  0 < Date_now o Line96 ->
  expiresAt s = 0 /\
  timeUntilExpiry o s < 0 /\
  timeUntilExpiry o s < 5 * 60 * 1000 /\
  calls refreshSession (effects (authRefreshTick o w)) = 1%nat.
Proof.
  intros Hfetch Herr Hs Hexp Hnow.
  assert (He : expiresAt s = 0) by (unfold expiresAt; rewrite Hexp; reflexivity).
  assert (Ht : timeUntilExpiry o s < 0) by (unfold timeUntilExpiry; lia).
  repeat split; try assumption; try lia.
  rewrite refresh_calls_with_session with (resp := resp) (s := s) by assumption.
  replace (needs_refresh (timeUntilExpiry o s)) with true; [reflexivity|].
  symmetry. apply needs_refresh_spec. lia.
Qed.

(** ** The connection prober *)


Ltac split_code err c :=
  let E := fresh "Ecode" in
  destruct (code_is err c) eqn:E.


(** The tick, by the way the race settles. *)
Lemma ping_tick_by_cases (o : Oracle) (w : World) :
  let r := connectionPingTick o w in
  completion r = Normal tt /\
  match race (probe o) with
  | Resolved resp =>
      match probe_error resp with
      | None =>
          lastActivity (after r) = Date_now o Line166 /\
          calls reconnectNow (effects r) = 0%nat
      | Some err =>
          if code_is err "PGRST116" then
            lastActivity (after r) = Date_now o Line155 /\
            calls reconnectNow (effects r) = 0%nat
          else
            calls reconnectNow (effects r) = 1%nat /\
            lastActivity (after r) = lastActivity w
      end
  | Rejected =>
      calls reconnectNow (effects r) = 1%nat /\
      lastActivity (after r) = lastActivity w
  end.
Proof.
  unfold connectionPingTick. step_through.
  destruct (race (probe o)) as [[[err|]]|]; cbn; [|auto..].
  split_code err "PGRST116"%string; cbn; [auto|].
  split_code err "TIMEOUT"%string; cbn; auto.
Qed.



(** ** Nothing escapes a callback whose calls return *)

Ltac oracle_cases o :=
  destruct o as [now gs rs im lo pr];
  destruct gs as [[[s|] [e|]]|];
  destruct rs as [[[re|]]|];
  destruct im as [[]|];
  destruct lo as [[]|].

Lemma safe_ret {A} (a : A) : safe (ret a).
Proof. intros w. split; [exists a|]; reflexivity. Qed.

Lemma safe_get {A} (f : World -> A) : safe (get f).
Proof. intros w. split; [exists (f w)|]; reflexivity. Qed.

Lemma safe_modify (f : World -> World) : safe (modify f).
Proof. intros w. split; [exists tt|]; reflexivity. Qed.

Lemma uncaught_app (es es' : list Effect) :
  uncaught (es ++ es') = uncaught es ++ uncaught es'.
Proof. apply filter_app. Qed.

Lemma safe_bind {A B} (m : M A) (k : A -> M B) :
  safe m -> (forall a, safe (k a)) -> safe (bind m k).
Proof.
  intros Hm Hk w. destruct (Hm w) as [[a Ha] Hq].
  pose proof (bind_cases m k w) as Hb. rewrite Ha in Hb. rewrite Hb.
  destruct (Hk a (after (m w))) as [[b Hb'] Hq'].
  rewrite and_then_completion, and_then_effects, uncaught_app, Hq, Hq'.
  split; [exists b; exact Hb'|reflexivity].
Qed.

Lemma safe_forEach {A} (l : list A) (f : A -> M unit) :
  (forall x, safe (f x)) -> safe (forEach l f).
Proof.
  intros Hf. induction l as [|x l IH]; cbn.
  - apply safe_ret.
  - apply safe_bind; [apply Hf|intros _; exact IH].
Qed.

Lemma safe_host_call (m : M unit) : safe m -> safe (host_call m).
Proof.
  intros Hm w. unfold host_call. destruct (Hm w) as [[a Ha] Hq].
  pose proof (try_catch_cases m (fun c => emit (Uncaught c)) w) as Ht.
  rewrite Ha in Ht. rewrite Ht. split; [exists a; exact Ha|exact Hq].
Qed.

Lemma safe_authRefreshTick (o : Oracle) : safe (authRefreshTick o).
Proof.
  intros w. unfold authRefreshTick. oracle_cases o; step_through;
    try destruct (needs_refresh _); cbn; split; eauto.
Qed.

Lemma safe_connectionPingTick (o : Oracle) : safe (connectionPingTick o).
Proof.
  intros w. destruct (ping_tick_by_cases o w) as [Hn _].
  split; [exists tt; exact Hn|].
  unfold connectionPingTick. step_through.
  destruct (race (probe o)) as [[[err|]]|]; cbn; try reflexivity.
  split_code err "PGRST116"%string; cbn; [reflexivity|].
  split_code err "TIMEOUT"%string; reflexivity.
Qed.

Lemma safe_idleCheckTick (c : nat) (o : Oracle) : safe (idleCheckTick c o).
Proof.
  intros w. unfold idleCheckTick. step_through.
  destruct (_ && _); cbn; split; eauto.
Qed.

Lemma safe_onVisibilityChange (c : nat) (o : Oracle) :
  safe (onVisibilityChange c o).
Proof.
  intros w. unfold onVisibilityChange. step_through.
  destruct (nth_error (closures w) c) as [l|]; cbn; [|split; eauto].
  destruct (Visibility_eqb _ _); cbn; [|split; eauto].
  destruct (should_recover _ _); cbn; split; eauto.
Qed.

Lemma safe_run_reaction (r : Reaction) : safe (run_reaction r).
Proof.
  intros w. destruct r as [o|o]; cbn;
    [unfold visibilityRefreshReaction|unfold idleRefreshReaction];
    oracle_cases o; step_through; split; eauto.
Qed.

Lemma safe_drain : safe drain.
Proof.
  unfold drain. apply safe_bind; [apply safe_get|intros rs].
  apply safe_bind; [apply safe_modify|intros _].
  apply safe_forEach. intros r. apply safe_host_call, safe_run_reaction.
Qed.

Lemma safe_task (m : M unit) : safe m -> safe (task m).
Proof.
  intros Hm. unfold task.
  apply safe_bind; [apply safe_host_call, Hm|intros _; apply safe_drain].
Qed.

Lemma safe_timer_body (cb : TimerCallback) (o : Oracle) :
  safe (timer_body cb o).
Proof.
  destruct cb; cbn;
    [apply safe_authRefreshTick|apply safe_connectionPingTick
    |apply safe_idleCheckTick].
Qed.

Lemma safe_listener_body (cb : ListenerCallback) (o : Oracle) :
  safe (listener_body cb o).
Proof.
  destruct cb; cbn; [apply safe_modify|apply safe_onVisibilityChange].
Qed.

Lemma safe_dispatch (ev : DomEvent) (o : Oracle) : safe (dispatch ev o).
Proof.
  unfold dispatch. apply safe_bind; [apply safe_get|intros ls].
  apply safe_forEach. intros l. apply safe_task, safe_listener_body.
Qed.

Lemma safe_fire (id : Z) (o : Oracle) : safe (fire id o).
Proof.
  unfold fire. apply safe_bind; [apply safe_get|intros ts].
  destruct (find _ ts) as [t|]; [apply safe_task, safe_timer_body|apply safe_ret].
Qed.

Lemma safe_emit (e : Effect) : is_uncaught e = false -> safe (emit e).
Proof.
  intros He w. split; [exists tt; reflexivity|]. cbn. rewrite He. reflexivity.
Qed.

Lemma safe_start (o : Oracle) : safe (start o).
Proof.
  intros w. unfold start. step_through.
  destruct (isActive w); cbn; split; eauto.
Qed.

Lemma safe_stop : safe stop.
Proof.
  intros w. unfold stop. step_through.
  destruct (truthy (authRefreshInterval w)); cbn;
    destruct (truthy (connectionPingInterval w)); cbn; split; eauto.
Qed.

Lemma safe_step (e : Event) : safe (step e).
Proof.
  destruct e; cbn;
    [apply safe_start|apply safe_stop|apply safe_fire|apply safe_dispatch|].
  apply safe_bind; [apply safe_modify|intros _; apply safe_dispatch].
Qed.

Lemma safe_run (es : list Event) : safe (run es).
Proof. apply safe_forEach, safe_step. Qed.

(** ** A reconnectNow that throws *)

Ltac ping_cases o err :=
  destruct (race (probe o)) as [[[err|]]|]; cbn;
  [split_code err "PGRST116"%string; cbn;
   [|split_code err "TIMEOUT"%string; cbn]| |].

(** With every call returning, the callbacks are the ones the timers run. *)
Lemma authRefreshTick_when_returns (o : Oracle) (w : World) :
  authRefreshTick_when Returns o w = authRefreshTick o w.
Proof.
  unfold authRefreshTick_when, authRefreshTick, invoke.
  oracle_cases o; step_through; try destruct (needs_refresh _); reflexivity.
Qed.

Lemma connectionPingTick_when_returns (o : Oracle) (w : World) :
  connectionPingTick_when Returns Returns o w = connectionPingTick o w.
Proof.
  unfold connectionPingTick_when, connectionPingTick, invoke. step_through.
  ping_cases o err; reflexivity.
Qed.

Lemma authRefreshTick_when_completes (redirect : Ends) (o : Oracle) (w : World) :
  completion (authRefreshTick_when redirect o w) = Normal tt.
Proof.
  unfold authRefreshTick_when, invoke.
  destruct redirect; oracle_cases o; step_through;
    try destruct (needs_refresh _); reflexivity.
Qed.

(** The callback of line 130, by the way the race settles and the two
    [reconnectNow] calls end. *)
Lemma ping_tick_when_by_cases (in_try in_catch : Ends) (o : Oracle) (w : World) :
  let r := connectionPingTick_when in_try in_catch o w in
  completion r =
    (if handler_runs in_try o then
       match in_catch with
       | Returns => Normal tt
       | Throws => Throw reconnectNow
       end
     else Normal tt) /\
  schedule (after r) = schedule w /\
  uncaught (effects r) = [] /\
  (in_try = Throws -> handler_runs in_try o = true ->
   race (probe o) <> Rejected -> calls reconnectNow (effects r) = 2%nat).
Proof.
  unfold connectionPingTick_when, handler_runs, invoke.
  destruct in_try, in_catch; step_through; ping_cases o err;
    repeat split; intros; congruence.
Qed.

(** C8 (amended): whatever the session fetch, the session refresh, the
    loading of the logout utilities and the logout answer, and whether
    [forceRedirectToHome] returns or throws, the auth-refresh callback
    completes normally.  The connection-ping callback completes normally for
    every outcome of the probe as long as the [reconnectNow] call of its
    [catch] handler returns, or the handler does not run; a [reconnectNow]
    that throws inside the [try] is caught, and the handler calls
    [reconnectNow] a second time.  The one exception that leaves the callback
    is a throw of the handler's own [reconnectNow] call, after a rejected
    probe or after the call inside the [try] threw.  The host then has one
    rejection to report, and the interval stays registered: the timer table,
    the stored handles and the listeners are as before.  With every call
    returning these are the callbacks the timers run. *)
Theorem timer_callbacks_exceptions :
  (forall (redirect : Ends) (o : Oracle) (w : World),
      completion (authRefreshTick_when redirect o w) = Normal tt) /\
  (forall (in_try in_catch : Ends) (o : Oracle) (w : World),
      let r := connectionPingTick_when in_try in_catch o w in
      let reported :=
        host_call (connectionPingTick_when in_try in_catch o) w in
      (in_catch = Returns -> completion r = Normal tt) /\
      (handler_runs in_try o = false -> completion r = Normal tt) /\
      (completion r = Throw reconnectNow <->
       handler_runs in_try o = true /\ in_catch = Throws) /\
      (completion r = Normal tt \/ completion r = Throw reconnectNow) /\
      (in_try = Throws -> handler_runs in_try o = true ->
       race (probe o) <> Rejected ->
       calls reconnectNow (effects r) = 2%nat) /\
      completion reported = Normal tt /\
      schedule (after reported) = schedule w /\
      (completion r = Normal tt -> uncaught (effects reported) = []) /\
      (completion r = Throw reconnectNow ->
       uncaught (effects reported) = [Uncaught reconnectNow])) /\
  (forall (o : Oracle) (w : World),
      authRefreshTick_when Returns o w = authRefreshTick o w /\
      connectionPingTick_when Returns Returns o w = connectionPingTick o w).
Proof.
  split; [exact authRefreshTick_when_completes|].
  split;
    [|intros o w; split;
      [apply authRefreshTick_when_returns
      |apply connectionPingTick_when_returns]].
  intros in_try in_catch o w r reported.
  destruct (ping_tick_when_by_cases in_try in_catch o w)
    as (Hc & Hs & Hu & Htwice).
  fold r in Hc, Hs, Hu, Htwice.
  assert (Hrep :
    completion reported = Normal tt /\
    after reported = after r /\
    effects reported =
      effects r ++
      match completion r with
      | Normal _ => []
      | Throw c => [Uncaught c]
      end).
  { unfold reported, host_call.
    pose proof (try_catch_cases
                  (connectionPingTick_when in_try in_catch o)
                  (fun c => emit (Uncaught c)) w) as Ht.
    fold r in Ht. destruct (completion r) as [[]|c] eqn:Er; rewrite Ht.
    - rewrite Er, app_nil_r. repeat split.
    - rewrite and_then_completion, and_then_after, and_then_effects.
      repeat split. }
  destruct Hrep as (Hrc & Hra & Hre).
  rewrite Hrc, Hra, Hre, uncaught_app, Hu, Hs, Hc.
  destruct (handler_runs in_try o), in_catch; cbn;
    repeat split; intros; try discriminate; try reflexivity; auto;
    intuition discriminate.
Qed.

(** C8 as stated fails: with a [reconnectNow] that throws, a probe that timed
    out makes the callback call it at line 158, catch that exception, call it
    again at line 170 and let the second exception out; after a rejected probe
    the handler's call is the first, and its exception gets out as well.  The
    host reports the rejection. *)
Lemma reconnect_failure_leaves_ping_callback :
  completion (connectionPingTick_when Throws Throws probe_hangs started) =
    Throw reconnectNow /\
  calls reconnectNow
    (effects (connectionPingTick_when Throws Throws probe_hangs started)) =
    2%nat /\
  completion
    (connectionPingTick_when Returns Throws (next_probe rejected_in_time)
       started) = Throw reconnectNow /\
  uncaught
    (effects
       (host_call (connectionPingTick_when Throws Throws probe_hangs) started)) =
    [Uncaught reconnectNow].
Proof. vm_compute. repeat split. Qed.

(** ** Callbacks leave the schedule alone *)

Lemma ks_ret {A} (a : A) : keeps_schedule (ret a).
Proof. intros w. reflexivity. Qed.

Lemma ks_get {A} (f : World -> A) : keeps_schedule (get f).
Proof. intros w. reflexivity. Qed.

Lemma ks_emit (e : Effect) : keeps_schedule (emit e).
Proof. intros w. reflexivity. Qed.

Lemma ks_modify (f : World -> World) :
  (forall w, schedule (f w) = schedule w) -> keeps_schedule (modify f).
Proof. intros Hf w. apply Hf. Qed.

Lemma ks_bind {A B} (m : M A) (k : A -> M B) :
  keeps_schedule m -> (forall a, keeps_schedule (k a)) ->
  keeps_schedule (bind m k).
Proof.
  intros Hm Hk w. pose proof (bind_cases m k w) as Hb.
  destruct (completion (m w)) as [a|c]; rewrite Hb;
    [rewrite and_then_after, Hk|cbn]; apply Hm.
Qed.

Lemma ks_try_catch {A} (m : M A) (h : ExternalCall -> M A) :
  keeps_schedule m -> (forall c, keeps_schedule (h c)) ->
  keeps_schedule (try_catch m h).
Proof.
  intros Hm Hh w. pose proof (try_catch_cases m h w) as Ht.
  destruct (completion (m w)) as [a|c]; rewrite Ht;
    [|rewrite and_then_after, Hh]; apply Hm.
Qed.

Lemma ks_forEach {A} (l : list A) (f : A -> M unit) :
  (forall x, keeps_schedule (f x)) -> keeps_schedule (forEach l f).
Proof.
  intros Hf. induction l as [|x l IH]; cbn.
  - apply ks_ret.
  - apply ks_bind; [apply Hf|intros _; exact IH].
Qed.

Lemma ks_host_call (m : M unit) : keeps_schedule m -> keeps_schedule (host_call m).
Proof.
  intros Hm. apply ks_try_catch; [exact Hm|intros c; apply ks_emit].
Qed.

Lemma update_nth_length {A} (n : nat) (f : A -> A) (l : list A) :
  List.length (update_nth n f l) = List.length l.
Proof.
  revert n. induction l as [|x l IH]; intros [|n]; cbn; congruence.
Qed.

Lemma ks_authRefreshTick (o : Oracle) : keeps_schedule (authRefreshTick o).
Proof.
  intros w. unfold authRefreshTick. oracle_cases o; step_through;
    try destruct (needs_refresh _); reflexivity.
Qed.

Lemma ks_connectionPingTick (o : Oracle) :
  keeps_schedule (connectionPingTick o).
Proof.
  intros w. unfold connectionPingTick. step_through.
  destruct (race (probe o)) as [[[err|]]|]; cbn; try reflexivity.
  split_code err "PGRST116"%string; cbn; [reflexivity|].
  split_code err "TIMEOUT"%string; reflexivity.
Qed.

Lemma ks_idleCheckTick (c : nat) (o : Oracle) :
  keeps_schedule (idleCheckTick c o).
Proof.
  intros w. unfold idleCheckTick. step_through.
  destruct (_ && _); reflexivity.
Qed.

Lemma ks_onVisibilityChange (c : nat) (o : Oracle) :
  keeps_schedule (onVisibilityChange c o).
Proof.
  intros w. unfold onVisibilityChange. step_through.
  destruct (nth_error (closures w) c) as [l|]; cbn; [|reflexivity].
  destruct (Visibility_eqb _ _); cbn;
    [destruct (should_recover _ _); cbn|];
    unfold schedule; cbn; rewrite update_nth_length; reflexivity.
Qed.

Lemma ks_run_reaction (r : Reaction) : keeps_schedule (run_reaction r).
Proof.
  intros w. destruct r as [o|o]; cbn;
    [unfold visibilityRefreshReaction|unfold idleRefreshReaction];
    oracle_cases o; step_through; reflexivity.
Qed.

Lemma ks_task (m : M unit) : keeps_schedule m -> keeps_schedule (task m).
Proof.
  intros Hm. unfold task, drain.
  apply ks_bind; [apply ks_host_call, Hm|intros _].
  apply ks_bind; [apply ks_get|intros rs].
  apply ks_bind; [apply ks_modify; reflexivity|intros _].
  apply ks_forEach. intros r. apply ks_host_call, ks_run_reaction.
Qed.

Lemma ks_fire (id : Z) (o : Oracle) : keeps_schedule (fire id o).
Proof.
  unfold fire. apply ks_bind; [apply ks_get|intros ts].
  destruct (find _ ts) as [t|]; [|apply ks_ret].
  apply ks_task. destruct (timer_callback t); cbn;
    [apply ks_authRefreshTick|apply ks_connectionPingTick
    |apply ks_idleCheckTick].
Qed.

Lemma ks_dispatch (ev : DomEvent) (o : Oracle) : keeps_schedule (dispatch ev o).
Proof.
  unfold dispatch. apply ks_bind; [apply ks_get|intros ls].
  apply ks_forEach. intros l. apply ks_task.
  destruct (listener_callback l); cbn;
    [apply ks_modify; reflexivity|apply ks_onVisibilityChange].
Qed.

Lemma Inv_schedule (w w' : World) :
  schedule w' = schedule w -> Inv w -> Inv w'.
Proof.
  unfold schedule. intros Hs [Hnext Hids Hnd Hst Hidle Hls Hh Hsc].
  destruct w, w'. cbn in *. unfold pending in *. cbn in *.
  injection Hs as -> -> -> -> -> Hlen ->.
  constructor; cbn; unfold pending; cbn; try assumption; try congruence.
  all: rewrite Hlen; assumption.
Qed.

(** ** start and stop *)

Lemma start_when_active (o : Oracle) (w : World) :
  isActive w = true ->
  start o w = {| completion := Normal tt; after := w; effects := [] |}.
Proof. intros H. unfold start. step_through. rewrite H. reflexivity. Qed.

Lemma start_when_inactive (o : Oracle) (w : World) :
  isActive w = false ->
  let n := next_timer_id w in
  let w' := after (start o w) in
  authRefreshInterval w' = Some n /\
  connectionPingInterval w' = Some (n + 1) /\
  isActive w' = true /\
  timers w' =
    timers w ++
    [{| timer_id := n; timer_callback := AuthRefreshCb; timer_ms := 240000 |};
     {| timer_id := n + 1; timer_callback := ConnectionPingCb;
        timer_ms := 15000 |};
     {| timer_id := n + 1 + 1;
        timer_callback := IdleCheckCb (List.length (closures w));
        timer_ms := 300000 |}] /\
  next_timer_id w' = n + 1 + 1 + 1 /\
  closures w' =
    closures w ++
    [{| lastHiddenTime := 0; lastVisibleTime := Date_now o Line181 |}] /\
  listeners w' =
    listeners w ++
    map (fun ev => {| listens_to := ev; listener_callback := UpdateActivityCb |})
        activity_events ++
    [{| listens_to := visibilitychange;
        listener_callback := VisibilityCb (List.length (closures w)) |}] /\
  lastActivity w' = Date_now o Line24 /\
  visibilityState w' = visibilityState w /\
  reactions w' = reactions w.
Proof.
  intros H. unfold start. step_through. rewrite H. cbn.
  repeat split; rewrite <- !app_assoc; reflexivity.
Qed.

Lemma stop_fields (w : World) :
  let w' := after (stop w) in
  isActive w' = false /\
  closures w' = closures w /\
  next_timer_id w' = next_timer_id w /\
  effects (stop w) = [Console log "KeepAlive Manager stopped"] /\
  listeners w' = listeners w /\
  visibilityState w' = visibilityState w /\
  reactions w' = reactions w /\
  lastActivity w' = lastActivity w.
Proof.
  unfold stop. step_through.
  destruct (truthy (authRefreshInterval w)); cbn;
    destruct (truthy (connectionPingInterval w)); cbn; repeat split.
Qed.

Lemma stop_when_active (w : World) (a p : Z) :
  authRefreshInterval w = Some a -> connectionPingInterval w = Some p ->
  a <> 0 -> p <> 0 ->
  let w' := after (stop w) in
  authRefreshInterval w' = None /\
  connectionPingInterval w' = None /\
  timers w' =
    filter (fun t => negb (timer_id t =? p))
      (filter (fun t => negb (timer_id t =? a)) (timers w)).
Proof.
  intros Ha Hp Ha0 Hp0. unfold stop. step_through. rewrite Ha. cbn.
  destruct (Z.eqb_spec a 0); [contradiction|]. cbn. rewrite Hp. cbn.
  destruct (Z.eqb_spec p 0); [contradiction|]. cbn. repeat split.
Qed.

Lemma stop_when_inactive (w : World) :
  authRefreshInterval w = None -> connectionPingInterval w = None ->
  let w' := after (stop w) in
  authRefreshInterval w' = None /\
  connectionPingInterval w' = None /\
  timers w' = timers w.
Proof.
  intros Ha Hp. unfold stop. step_through. rewrite Ha. cbn. rewrite Hp. cbn.
  repeat split; assumption.
Qed.

(** ** Lists of timers *)

Lemma filter_comm {A} (f g : A -> bool) (l : list A) :
  filter f (filter g l) = filter g (filter f l).
Proof.
  induction l as [|x l IH]; cbn; [reflexivity|].
  destruct (f x) eqn:Hf, (g x) eqn:Hg; cbn; rewrite ?Hf, ?Hg, IH; reflexivity.
Qed.

Lemma filter_absorb {A} (f g : A -> bool) (l : list A) :
  (forall x, In x l -> f x = true -> g x = true) ->
  filter f (filter g l) = filter f l.
Proof.
  induction l as [|x l IH]; cbn; intros H; [reflexivity|].
  destruct (f x) eqn:Hf.
  - rewrite (H x (or_introl eq_refl) Hf). cbn. rewrite Hf, IH; [reflexivity|].
    intros y Hy. apply H. right. exact Hy.
  - destruct (g x); cbn; rewrite ?Hf; apply IH; intros y Hy; apply H; right;
      exact Hy.
Qed.

Lemma NoDup_map_filter {A B} (k : A -> B) (f : A -> bool) (l : list A) :
  NoDup (map k l) -> NoDup (map k (filter f l)).
Proof.
  induction l as [|x l IH]; cbn; intros H; [constructor|].
  inversion H as [|? ? Hx Hl]; subst.
  destruct (f x); cbn; [constructor|]; auto.
  intros Hin. apply Hx. apply in_map_iff in Hin as [y [Hy Hyin]].
  apply in_map_iff. exists y. split; [exact Hy|].
  apply filter_In in Hyin. tauto.
Qed.

Lemma unique_handle (l : list Timer) (t t' : Timer) :
  NoDup (map timer_id l) -> In t l -> In t' l ->
  timer_id t = timer_id t' -> t = t'.
Proof.
  induction l as [|x l IH]; cbn; intros Hnd Ht Ht' Hid; [contradiction|].
  inversion Hnd as [|? ? Hx Hl]; subst.
  destruct Ht as [->|Ht], Ht' as [->|Ht']; auto.
  - exfalso. apply Hx. rewrite Hid. apply in_map. exact Ht'.
  - exfalso. apply Hx. rewrite <- Hid. apply in_map. exact Ht.
Qed.

Lemma In_pending (cb : TimerCallback) (w : World) (t : Timer) :
  pending cb w = [t] -> In t (timers w) /\ timer_callback t = cb.
Proof.
  unfold pending. intros H.
  assert (Hin : In t (filter (fun t => TimerCallback_eqb (timer_callback t) cb)
                        (timers w))) by (rewrite H; left; reflexivity).
  apply filter_In in Hin as [Hin Hcb]. split; [exact Hin|].
  destruct (timer_callback t), cb; cbn in Hcb; try discriminate;
    try reflexivity.
  apply Nat.eqb_eq in Hcb. congruence.
Qed.

(** ** The timer table stays consistent with the manager's fields *)

Lemma Inv_initial (t0 : Z) (v : Visibility) : Inv (initial t0 v).
Proof.
  constructor; cbn; unfold pending; cbn; try lia; try tauto; constructor.
Qed.

Lemma Inv_start (o : Oracle) (w : World) : Inv w -> Inv (after (start o w)).
Proof.
  intros HI. destruct (isActive w) eqn:Hact.
  - rewrite start_when_active by exact Hact. exact HI.
  - destruct (start_when_inactive o w Hact)
      as (Ha & Hp & Hact' & Hts & Hn & Hcl & Hlis & _).
    destruct HI as [Hnext Hids Hnd Hst Hidle Hls Hh Hsc]. rewrite Hact in Hst.
    destruct Hst as (_ & _ & Hpa & Hpp).
    constructor.
    + rewrite Hn. lia.
    + rewrite Hts, Hn. intros t Hin. apply in_app_or in Hin as [Hin|Hin].
      * apply Hids in Hin. lia.
      * cbn in Hin. destruct Hin as [<-|[<-|[<-|[]]]]; cbn; lia.
    + rewrite Hts, map_app. apply NoDup_app; [exact Hnd| |].
      * cbn. repeat constructor; cbn; intuition lia.
      * intros a Hin Hin'. apply in_map_iff in Hin as [t [<- Hin]].
        apply Hids in Hin. cbn in Hin'. lia.
    + rewrite Hact'. exists (next_timer_id w), (next_timer_id w + 1).
      split; [exact Ha|]. split; [exact Hp|].
      unfold pending in *. rewrite Hts, !filter_app, Hpa, Hpp.
      split; reflexivity.
    + rewrite Hts, Hcl, filter_app, !length_app, Hidle. reflexivity.
    + rewrite Hlis. intros l Hin Hev.
      apply in_app_or in Hin as [Hin|Hin]; [apply Hls; assumption|].
      cbn in Hin. intuition (subst; try reflexivity; contradiction).
    + rewrite Hlis, Hcl, length_app. cbn. intros c Hc.
      apply in_or_app.
      destruct (Nat.eq_dec c (List.length (closures w))) as [->|Hne].
      * right. cbn. auto 10.
      * left. apply Hh. lia.
    + rewrite Hcl, length_app. cbn. lia.
Qed.

Lemma Inv_stop (w : World) : Inv w -> Inv (after (stop w)).
Proof.
  intros HI. destruct (stop_fields w) as (Hact' & Hcl & Hn & _ & Hlis & _).
  destruct HI as [Hnext Hids Hnd Hst Hidle Hls Hh Hsc].
  destruct (isActive w) eqn:Hact.
  - destruct Hst as (a & p & Ha & Hp & Hpa & Hpp).
    destruct (In_pending _ _ Hpa) as [Hina _].
    destruct (In_pending _ _ Hpp) as [Hinp _].
    pose proof (Hids _ Hina) as Hida. pose proof (Hids _ Hinp) as Hidp.
    cbn in Hida, Hidp.
    destruct (stop_when_active w Ha Hp) as (Ha' & Hp' & Hts); [lia..|].
    constructor.
    + rewrite Hn. exact Hnext.
    + rewrite Hts, Hn. intros t Hin.
      apply filter_In in Hin as [Hin _]. apply filter_In in Hin as [Hin _].
      apply Hids, Hin.
    + rewrite Hts. apply NoDup_map_filter, NoDup_map_filter, Hnd.
    + rewrite Hact'. split; [exact Ha'|]. split; [exact Hp'|].
      unfold pending in *. rewrite Hts.
      split.
      * rewrite filter_comm, (filter_comm _ _ (timers w)), Hpa. cbn.
        rewrite Z.eqb_refl. reflexivity.
      * rewrite filter_comm, (filter_comm _ _ (timers w)), Hpp. cbn.
        destruct (p =? a); cbn; rewrite ?Z.eqb_refl; reflexivity.
    + rewrite Hts, Hcl, <- Hidle. f_equal.
      rewrite filter_absorb.
      * apply filter_absorb. intros t Hin Hidle'.
        destruct (Z.eqb_spec (timer_id t) a) as [Heq|]; [|reflexivity].
        rewrite (@unique_handle _ _ _ Hnd Hin Hina Heq) in Hidle'. discriminate.
      * intros t Hin Hidle'. apply filter_In in Hin as [Hin _].
        destruct (Z.eqb_spec (timer_id t) p) as [Heq|]; [|reflexivity].
        rewrite (@unique_handle _ _ _ Hnd Hin Hinp Heq) in Hidle'. discriminate.
    + rewrite Hlis. exact Hls.
    + rewrite Hlis, Hcl. exact Hh.
    + rewrite Hact'. discriminate.
  - destruct Hst as (Ha & Hp & Hpa & Hpp).
    destruct (stop_when_inactive w Ha Hp) as (Ha' & Hp' & Hts).
    constructor; rewrite ?Hts, ?Hn, ?Hcl, ?Hact', ?Hlis; try assumption;
      try discriminate.
    unfold pending in *. rewrite Hts. tauto.
Qed.

Lemma Inv_step (e : Event) (w : World) : Inv w -> Inv (after (step e w)).
Proof.
  destruct e as [o| |id o|ev o|v o]; cbn [step].
  - apply Inv_start.
  - apply Inv_stop.
  - apply Inv_schedule, ks_fire.
  - apply Inv_schedule, ks_dispatch.
  - apply Inv_schedule.
    apply (ks_bind (m := modify (set_visibilityState v))).
    + apply ks_modify. reflexivity.
    + intros _. apply ks_dispatch.
Qed.

Lemma run_cons (e : Event) (es : list Event) (w : World) :
  after (run (e :: es) w) = after (run es (after (step e w))) /\
  effects (run (e :: es) w) =
    effects (step e w) ++ effects (run es (after (step e w))).
Proof.
  unfold run. cbn [forEach].
  destruct (safe_step e w) as [[[] H] _].
  pose proof (bind_cases (step e) (fun _ => forEach es step) w) as Hb.
  rewrite H in Hb. rewrite Hb, and_then_after, and_then_effects.
  split; reflexivity.
Qed.

Lemma Inv_run (es : list Event) (w : World) : Inv w -> Inv (after (run es w)).
Proof.
  revert w. induction es as [|e es IH]; intros w HI; [exact HI|].
  destruct (run_cons e es w) as [-> _]. apply IH, Inv_step, HI.
Qed.

Lemma start_sets_active (o : Oracle) (w : World) :
  isActive (after (start o w)) = true.
Proof.
  destruct (isActive w) eqn:Hact.
  - rewrite start_when_active by exact Hact. exact Hact.
  - apply (start_when_inactive o w Hact).
Qed.

(** C2: a [start()] on a running manager changes nothing and does nothing;
    after two [start()] calls in a row, from any state the page can reach,
    there is exactly one auth-refresh timer and exactly one connection-ping
    timer, the ones whose handles the manager holds. *)
Theorem start_twice_one_timer_each
    (t0 : Z) (v : Visibility) (es : list Event) (o1 o2 : Oracle) :
  let w := after (run es (initial t0 v)) in
  let w1 := after (start o1 w) in
  let w2 := after (start o2 w1) in
  (forall (o : Oracle) (w' : World),
      isActive w' = true ->
      start o w' = {| completion := Normal tt; after := w'; effects := [] |}) /\
  start o2 w1 = {| completion := Normal tt; after := w1; effects := [] |} /\
  List.length (pending AuthRefreshCb w2) = 1%nat /\
  List.length (pending ConnectionPingCb w2) = 1%nat /\
  exists a p,
    authRefreshInterval w2 = Some a /\
    connectionPingInterval w2 = Some p /\
    pending AuthRefreshCb w2 =
      [{| timer_id := a; timer_callback := AuthRefreshCb;
          timer_ms := 240000 |}] /\
    pending ConnectionPingCb w2 =
      [{| timer_id := p; timer_callback := ConnectionPingCb;
          timer_ms := 15000 |}].
Proof.
  intros w w1 w2.
  assert (Hnoop : start o2 w1 =
                  {| completion := Normal tt; after := w1; effects := [] |})
    by (apply start_when_active, start_sets_active).
  assert (HI : Inv w2)
    by (apply Inv_start, Inv_start, Inv_run, Inv_initial).
  assert (Hact : isActive w2 = true) by apply start_sets_active.
  pose proof (inv_stored HI) as Hst. rewrite Hact in Hst.
  destruct Hst as (a & p & Ha & Hp & Hpa & Hpp).
  split; [intros o w'; apply start_when_active|].
  split; [exact Hnoop|].
  rewrite Hpa, Hpp. split; [reflexivity|]. split; [reflexivity|].
  exists a, p. auto.
Qed.

Lemma start_twice_one_timer_each_witness :
  isActive started = true /\
  start fetch_fails started =
    {| completion := Normal tt; after := started; effects := [] |}.
Proof.
  split; [reflexivity|].
  exact (proj1 (start_twice_one_timer_each 0 visible [] fetch_fails fetch_fails)
               fetch_fails started eq_refl).
Defined.

(** ** What stop() leaves behind *)

Lemma only_idle_checks_when_inactive (w : World) :
  Inv w -> isActive w = false ->
  timers w = filter is_idle_check (timers w).
Proof.
  intros HI Hact. pose proof (inv_stored HI) as Hst. rewrite Hact in Hst.
  destruct Hst as (_ & _ & Hpa & Hpp). unfold pending in *.
  symmetry. apply forallb_filter_id, forallb_forall. intros t Hin.
  unfold is_idle_check. destruct (timer_callback t) eqn:Hcb; [| |reflexivity].
  - assert (H : In t []) by (rewrite <- Hpa; apply filter_In; rewrite Hcb; auto).
    destruct H.
  - assert (H : In t []) by (rewrite <- Hpp; apply filter_In; rewrite Hcb; auto).
    destruct H.
Qed.

(** After [stop()], whatever happened before: the manager reports inactive,
    the auth-refresh and connection-ping timers are gone, and what is still
    pending is one idle-check timer for every [start()] that took effect. *)
Lemma stop_after_any_history (t0 : Z) (v : Visibility) (es : list Event) :
  let w := after (stop (after (run es (initial t0 v)))) in
  getActive w = false /\
  pending AuthRefreshCb w = [] /\
  pending ConnectionPingCb w = [] /\
  timers w = filter is_idle_check (timers w) /\
  List.length (timers w) = List.length (closures w).
Proof.
  intros w.
  assert (HI : Inv w) by (apply Inv_stop, Inv_run, Inv_initial).
  assert (Hact : isActive w = false) by apply stop_fields.
  pose proof (inv_stored HI) as Hst. rewrite Hact in Hst.
  destruct Hst as (_ & _ & Hpa & Hpp).
  pose proof (only_idle_checks_when_inactive HI Hact) as Honly.
  repeat split; try assumption.
  rewrite Honly. apply (inv_idle HI).
Qed.

Lemma run_app (es es' : list Event) (w : World) :
  after (run (es ++ es') w) = after (run es' (after (run es w))).
Proof.
  revert w. induction es as [|e es IH]; intros w; [reflexivity|].
  cbn [app]. destruct (run_cons e (es ++ es') w) as [-> _].
  destruct (run_cons e es w) as [-> _]. apply IH.
Qed.

(** Every start/stop round leaves one more idle-check timer pending. *)
Lemma cycles_leak (n : nat) (o : Oracle) (t0 : Z) (v : Visibility) :
  let w := after (run (cycles n o) (initial t0 v)) in
  getActive w = false /\ List.length (timers w) = n.
Proof.
  cbn zeta.
  assert (Hgen : forall w0, Inv w0 -> isActive w0 = false ->
            let w := after (run (cycles n o) w0) in
            Inv w /\ isActive w = false /\
            List.length (closures w) = (List.length (closures w0) + n)%nat).
  { induction n as [|n IH]; intros w0 HI Hact; cbn zeta.
    - cbn. split; [exact HI|]. split; [exact Hact|]. lia.
    - cbn [cycles].
      destruct (run_cons (call_start o) (call_stop :: cycles n o) w0) as [-> _].
      destruct (run_cons call_stop (cycles n o) (after (step (call_start o) w0)))
        as [-> _].
      cbn [step].
      destruct (start_when_inactive o w0 Hact) as (_ & _ & _ & _ & _ & Hcl & _).
      destruct (stop_fields (after (start o w0))) as (Hact' & Hcl' & _).
      destruct (IH (after (stop (after (start o w0)))))
        as (HI'' & Hact'' & Hlen); [apply Inv_stop, Inv_start, HI|exact Hact'|].
      split; [exact HI''|]. split; [exact Hact''|].
      rewrite Hlen, Hcl', Hcl, length_app. cbn. lia. }
  destruct (Hgen (initial t0 v) (Inv_initial t0 v) eq_refl)
    as (HI & Hact & Hlen).
  split; [exact Hact|].
  rewrite (only_idle_checks_when_inactive HI Hact), (inv_idle HI), Hlen.
  reflexivity.
Qed.

(** C1 (fails on the code): after [start()] then [stop()] on a fresh page the
    manager reports inactive and its auth-refresh and connection-ping timers
    are cleared, but the idle-check interval registered at line 227 is still
    pending: its handle was never kept, so [stop()] cannot clear it.  The
    same holds after any history: a [stop()] that follows a [start()] always
    leaves at least one idle-check timer pending. *)
Theorem stop_leaves_idle_check_pending
    (t0 : Z) (v : Visibility) (o : Oracle) :
  (let w := after (run [call_start o; call_stop] (initial t0 v)) in
   getActive w = false /\
   pending AuthRefreshCb w = [] /\
   pending ConnectionPingCb w = [] /\
   timers w =
     [{| timer_id := 3; timer_callback := IdleCheckCb 0;
         timer_ms := 300000 |}]) /\
  (forall es : list Event,
      let w := after (run (es ++ [call_start o; call_stop]) (initial t0 v)) in
      getActive w = false /\
      pending AuthRefreshCb w = [] /\
      pending ConnectionPingCb w = [] /\
      timers w = filter is_idle_check (timers w) /\
      (1 <= List.length (timers w))%nat).
Proof.
  split; [repeat split|].
  intros es w.
  set (w0 := after (run es (initial t0 v))).
  assert (Hw : w = after (stop (after (start o w0)))).
  { unfold w. rewrite run_app. fold w0.
    destruct (run_cons (call_start o) [call_stop] w0) as [-> _].
    destruct (run_cons call_stop [] (after (step (call_start o) w0)))
      as [-> _].
    reflexivity. }
  assert (HI0 : Inv w0) by apply Inv_run, Inv_initial.
  assert (HI1 : Inv (after (start o w0))) by apply Inv_start, HI0.
  assert (HI : Inv w) by (rewrite Hw; apply Inv_stop, HI1).
  assert (Hact : isActive w = false) by (rewrite Hw; apply stop_fields).
  pose proof (inv_stored HI) as Hst. rewrite Hact in Hst.
  destruct Hst as (_ & _ & Hpa & Hpp).
  pose proof (only_idle_checks_when_inactive HI Hact) as Honly.
  repeat split; try assumption.
  rewrite Honly, (inv_idle HI), Hw.
  destruct (stop_fields (after (start o w0))) as (_ & -> & _).
  apply (inv_started HI1), start_sets_active.
Qed.

(** ** The visibility and idle monitor *)

Lemma calls_app (c : ExternalCall) (es es' : list Effect) :
  calls c (es ++ es') = (calls c es + calls c es')%nat.
Proof. unfold calls. rewrite filter_app, length_app. reflexivity. Qed.

Lemma broadcasts_app (es es' : list Effect) :
  broadcasts (es ++ es') = broadcasts es ++ broadcasts es'.
Proof. apply filter_app. Qed.

(** A reaction only talks to the collaborators: it completes, and the world
    is as it found it. *)
Lemma reaction_leaves_world (r : Reaction) (w : World) :
  completion (run_reaction r w) = Normal tt /\ after (run_reaction r w) = w.
Proof.
  destruct r as [o|o]; cbn;
    [unfold visibilityRefreshReaction|unfold idleRefreshReaction];
    oracle_cases o; step_through; split; reflexivity.
Qed.

Lemma visibility_reaction_effects (o : Oracle) (w : World) :
  let es := effects (visibilityRefreshReaction o w) in
  calls getSession es = 0%nat /\
  calls reconnectNow es = 0%nat /\
  broadcasts es = [] /\
  calls refreshSession es = (if session_fetched o then 1 else 0)%nat.
Proof.
  unfold visibilityRefreshReaction, session_fetched.
  oracle_cases o; step_through; repeat split.
Qed.

Lemma idle_reaction_effects (o : Oracle) (w : World) :
  let es := effects (idleRefreshReaction o w) in
  calls getSession es = 0%nat /\
  calls reconnectNow es = 0%nat /\
  calls performCompleteLogout es = 0%nat /\
  calls forceRedirectToHome es = 0%nat /\
  broadcasts es = [] /\
  calls refreshSession es = (if session_fetched o then 1 else 0)%nat.
Proof.
  unfold idleRefreshReaction, session_fetched.
  oracle_cases o; step_through; repeat split.
Qed.

(** A callback that completes and registers nothing: the task is the
    callback. *)
Lemma task_without_reaction (m : M unit) (w w' : World) (es : list Effect) :
  m w = {| completion := Normal tt; after := w'; effects := es |} ->
  reactions w' = [] ->
  task m w = {| completion := Normal tt; after := set_reactions [] w';
                effects := es |}.
Proof.
  intros Hm Hr. unfold task, drain. step_through. rewrite Hm. cbn.
  rewrite Hr. cbn. rewrite ?app_nil_r. reflexivity.
Qed.

(** A callback that completes and registers one reaction: the task is the
    callback, then the reaction. *)
Lemma task_with_reaction
    (m : M unit) (w w' : World) (es : list Effect) (r : Reaction) :
  m w = {| completion := Normal tt; after := w'; effects := es |} ->
  reactions w' = [r] ->
  completion (task m w) = Normal tt /\
  after (task m w) = set_reactions [] w' /\
  effects (task m w) = es ++ effects (run_reaction r (set_reactions [] w')).
Proof.
  intros Hm Hr. unfold task, drain. step_through. rewrite Hm. cbn.
  rewrite Hr. cbn. unfold bind, and_then, ret.
  destruct (reaction_leaves_world r (set_reactions [] w')) as [Hc Ha].
  destruct (run_reaction r (set_reactions [] w')) as [[[]|c] w3 es3];
    cbn in *; [|discriminate].
  subst w3. rewrite ?app_nil_r. repeat split.
Qed.

Lemma onVisibilityChange_visible
    (c : nat) (o : Oracle) (w : World) (l : VisibilityLocals) :
  visibilityState w = visible ->
  nth_error (closures w) c = Some l ->
  let hiddenDuration := Date_now o Line185 - lastHiddenTime l in
  let timeSinceLastVisible := Date_now o Line186 - lastVisibleTime l in
  onVisibilityChange c o w =
    if should_recover hiddenDuration timeSinceLastVisible then
      {| completion := Normal tt;
         after :=
           set_lastVisibleTime c (Date_now o Line219)
             (set_reactions (reactions w ++ [VisibilityRefreshReaction o]) w);
         effects :=
           [Console log "KeepAlive: Tab visible after";
            Call getSession;
            Call reconnectNow;
            DispatchAppRefresh "visibility-change" (Some hiddenDuration)] |}
    else
      {| completion := Normal tt;
         after := set_lastVisibleTime c (Date_now o Line219) w;
         effects := [] |}.
Proof.
  intros Hv Hl. unfold onVisibilityChange. step_through. rewrite Hv, Hl. cbn.
  destruct (should_recover _ _); reflexivity.
Qed.

(** What a qualifying switch to visible does, in full. *)
Lemma visibility_recovery
    (c : nat) (o : Oracle) (w : World) (l : VisibilityLocals) :
  reactions w = [] ->
  visibilityState w = visible ->
  nth_error (closures w) c = Some l ->
  let hiddenDuration := Date_now o Line185 - lastHiddenTime l in
  let timeSinceLastVisible := Date_now o Line186 - lastVisibleTime l in
  should_recover hiddenDuration timeSinceLastVisible = true ->
  let r := task (onVisibilityChange c o) w in
  completion r = Normal tt /\
  calls getSession (effects r) = 1%nat /\
  calls reconnectNow (effects r) = 1%nat /\
  broadcasts (effects r) =
    [DispatchAppRefresh "visibility-change" (Some hiddenDuration)] /\
  calls refreshSession (effects r) = (if session_fetched o then 1 else 0)%nat.
Proof.
  intros Hr Hv Hl hd tv Hrec r.
  pose proof (onVisibilityChange_visible c o w Hv Hl) as Hrun.
  cbn zeta in Hrun. fold hd tv in Hrun. rewrite Hrec, Hr in Hrun.
  destruct (task_with_reaction _ _ Hrun eq_refl) as (Hc & _ & He).
  fold r in Hc, He. split; [exact Hc|]. rewrite He. cbn [run_reaction].
  rewrite !calls_app, broadcasts_app.
  match goal with
  | |- context [effects (visibilityRefreshReaction o ?w')] =>
      destruct (visibility_reaction_effects o w') as (-> & -> & -> & ->)
  end.
  repeat split.
Qed.

Lemma set_reactions_same (w : World) :
  reactions w = [] -> set_reactions [] w = w.
Proof. destruct w. cbn. intros ->. reflexivity. Qed.

Lemma idleCheckTick_run (c : nat) (o : Oracle) (w : World) :
  idleCheckTick c o w =
    if (Date_now o Line228 - lastActivity w >? 600000)
       && Visibility_eqb (visibilityState w) visible
    then
      {| completion := Normal tt;
         after :=
           set_lastActivity (Date_now o Line247)
             (set_reactions (reactions w ++ [IdleRefreshReaction o]) w);
         effects :=
           [Console log "KeepAlive: Long idle period detected, refreshing...";
            Call getSession;
            DispatchAppRefresh "idle-refresh" None] |}
    else {| completion := Normal tt; after := w; effects := [] |}.
Proof.
  unfold idleCheckTick. step_through. destruct (_ && _); reflexivity.
Qed.

Lemma idle_spec (t : Z) (v : Visibility) :
  (t >? 600000) && Visibility_eqb v visible = true <->
  t > 10 * 60 * 1000 /\ v = visible.
Proof.
  rewrite andb_true_iff, Z.gtb_gt.
  destruct v; cbn; intuition (try discriminate; lia).
Qed.

(** C7: on an idle-check tick, if more than 10 minutes have passed since the
    last recorded activity and the document is visible, the manager starts a
    best-effort session refresh (a [getSession], then a [refreshSession] once
    it yields a session; no failure of either gets out), broadcasts
    [app:refresh] with reason "idle-refresh", and sets [lastActivity] to the
    current time; if either condition fails, it does nothing at all. *)
Theorem idle_check_refreshes (c : nat) (o : Oracle) (w : World) :
  reactions w = [] ->
  let timeSinceActivity := Date_now o Line228 - lastActivity w in
  let idle := timeSinceActivity > 10 * 60 * 1000 /\ visibilityState w = visible in
  let r := task (idleCheckTick c o) w in
  completion r = Normal tt /\
  uncaught (effects r) = [] /\
  (idle ->
   calls getSession (effects r) = 1%nat /\
   calls refreshSession (effects r) = (if session_fetched o then 1 else 0)%nat /\
   broadcasts (effects r) = [DispatchAppRefresh "idle-refresh" None] /\
   lastActivity (after r) = Date_now o Line247) /\
  (~ idle -> effects r = [] /\ after r = w).
Proof.
  intros Hr t idle r.
  destruct (safe_task (safe_idleCheckTick c o) w) as [[[] Hc] Hu].
  fold r in Hc, Hu. split; [exact Hc|]. split; [exact Hu|].
  pose proof (idleCheckTick_run c o w) as Hrun. fold t in Hrun.
  pose proof (idle_spec t (visibilityState w)) as Hspec. fold idle in Hspec.
  destruct ((t >? 600000) && Visibility_eqb (visibilityState w) visible).
  - assert (Hi : idle) by (apply Hspec; reflexivity).
    split; [intros _|intros Hn; contradiction].
    rewrite Hr in Hrun.
    destruct (task_with_reaction _ _ Hrun eq_refl) as (_ & Ha & He).
    fold r in Ha, He. rewrite He, Ha. cbn [run_reaction].
    rewrite !calls_app, broadcasts_app.
    match goal with
    | |- context [effects (idleRefreshReaction o ?w')] =>
        destruct (idle_reaction_effects o w') as (-> & _ & _ & _ & -> & ->)
    end.
    repeat split.
  - assert (Hi : ~ idle) by (intros H; apply Hspec in H; discriminate).
    split; [intros H; contradiction|intros _].
    unfold r. rewrite (task_without_reaction _ _ Hrun Hr). cbn.
    split; [reflexivity|apply set_reactions_same, Hr].
Qed.

(** ** Who logs the user out *)

Lemma auth_tick_escalates (o : Oracle) (w : World) :
  due_for_refresh o = true -> refresh_reports_error o = true ->
  import_settles o = Resolved tt -> logout_settles o = Resolved tt ->
  effects (authRefreshTick o w) =
    [Call getSession;
     Call refreshSession;
     Console warn "KeepAlive: Token refresh error, forcing logout:";
     Call importLogoutUtils;
     Call performCompleteLogout;
     Call forceRedirectToHome].
Proof.
  unfold due_for_refresh, refresh_reports_error, authRefreshTick.
  oracle_cases o; step_through; intros Hdue Herr Him Hlo; try discriminate.
  rewrite Hdue. reflexivity.
Qed.

Lemma auth_tick_otherwise (o : Oracle) (w : World) :
  due_for_refresh o && refresh_reports_error o = false ->
  no_escalation (effects (authRefreshTick o w)).
Proof.
  unfold due_for_refresh, refresh_reports_error, authRefreshTick, no_escalation.
  oracle_cases o; step_through; intros H;
    try destruct (needs_refresh _); cbn in *; try discriminate;
    split; reflexivity.
Qed.

Lemma visibility_reaction_escalates (o : Oracle) (w : World) :
  session_fetched o = true -> refresh_reports_error o = true ->
  import_settles o = Resolved tt -> logout_settles o = Resolved tt ->
  effects (visibilityRefreshReaction o w) =
    [Call refreshSession;
     Console warn "KeepAlive: Visibility refresh token error, forcing logout:";
     Call importLogoutUtils;
     Call performCompleteLogout;
     Call forceRedirectToHome].
Proof.
  unfold session_fetched, refresh_reports_error, visibilityRefreshReaction.
  oracle_cases o; step_through; intros Hs Herr Him Hlo; try discriminate;
    reflexivity.
Qed.

Lemma others_never_escalate (c : nat) (o : Oracle) (w : World) :
  no_escalation (effects (connectionPingTick o w)) /\
  no_escalation (effects (idleCheckTick c o w)) /\
  no_escalation (effects (idleRefreshReaction o w)) /\
  no_escalation (effects (onVisibilityChange c o w)) /\
  no_escalation (effects (updateActivity o w)) /\
  no_escalation (effects (start o w)) /\
  no_escalation (effects (stop w)).
Proof.
  unfold no_escalation. repeat split.
  1, 2: unfold connectionPingTick; step_through;
        destruct (race (probe o)) as [[[err|]]|]; cbn; try reflexivity;
        split_code err "PGRST116"%string; cbn; try reflexivity;
        split_code err "TIMEOUT"%string; reflexivity.
  1, 2: rewrite idleCheckTick_run; destruct (_ && _); reflexivity.
  1, 2: apply (idle_reaction_effects o w).
  1, 2: unfold onVisibilityChange; step_through;
        destruct (nth_error (closures w) c) as [l|]; cbn; try reflexivity;
        destruct (Visibility_eqb _ _); cbn; try reflexivity;
        destruct (should_recover _ _); reflexivity.
  1, 2: unfold start; step_through; destruct (isActive w); reflexivity.
  1, 2: rewrite (proj1 (proj2 (proj2 (proj2 (stop_fields w))))); reflexivity.
Qed.

(** C4 (amended): on an auth-refresh tick whose fetch yields a session that is
    due for a refresh, when [refreshSession] resolves with an error the manager
    performs exactly one complete logout followed by exactly one redirect
    (the logout utilities having loaded and the logout having completed); on
    an auth-refresh tick where no session is due for a refresh or
    [refreshSession] does not resolve with an error (a rejected refresh and a
    failed recovery refresh included) it performs neither.  The reaction of
    the visibility listener escalates in the same way; no other callback or
    method does. *)
Theorem logout_and_redirect_paths (c : nat) (o : Oracle) (w : World) :
  (due_for_refresh o = true -> refresh_reports_error o = true ->
   import_settles o = Resolved tt -> logout_settles o = Resolved tt ->
   effects (authRefreshTick o w) =
     [Call getSession;
      Call refreshSession;
      Console warn "KeepAlive: Token refresh error, forcing logout:";
      Call importLogoutUtils;
      Call performCompleteLogout;
      Call forceRedirectToHome] /\
   calls performCompleteLogout (effects (authRefreshTick o w)) = 1%nat /\
   calls forceRedirectToHome (effects (authRefreshTick o w)) = 1%nat) /\
  (due_for_refresh o && refresh_reports_error o = false ->
   no_escalation (effects (authRefreshTick o w))) /\
  (session_fetched o = true -> refresh_reports_error o = true ->
   import_settles o = Resolved tt -> logout_settles o = Resolved tt ->
   effects (visibilityRefreshReaction o w) =
     [Call refreshSession;
      Console warn
        "KeepAlive: Visibility refresh token error, forcing logout:";
      Call importLogoutUtils;
      Call performCompleteLogout;
      Call forceRedirectToHome]) /\
  no_escalation (effects (connectionPingTick o w)) /\
  no_escalation (effects (idleCheckTick c o w)) /\
  no_escalation (effects (idleRefreshReaction o w)) /\
  no_escalation (effects (onVisibilityChange c o w)) /\
  no_escalation (effects (updateActivity o w)) /\
  no_escalation (effects (start o w)) /\
  no_escalation (effects (stop w)).
Proof.
  split.
  { intros Hdue Herr Him Hlo.
    rewrite (auth_tick_escalates o w Hdue Herr Him Hlo). repeat split. }
  split; [apply auth_tick_otherwise|].
  split; [apply visibility_reaction_escalates|].
  apply others_never_escalate.
Qed.

(** C4 as stated fails: with no auth-refresh tick at all, showing the tab
    again after 65 seconds with an invalid refresh token logs the user out and
    redirects; an auth-refresh tick whose (recovery) refresh is rejected logs
    nobody out; and when the logout itself is rejected no redirect follows. *)
Lemma logout_outside_auth_tick :
  calls performCompleteLogout
    (effects (run [tab_hidden; tab_shown_refresh_invalid] started)) = 1%nat /\
  calls forceRedirectToHome
    (effects (run [tab_hidden; tab_shown_refresh_invalid] started)) = 1%nat /\
  refreshSession_settles fetch_fails = Rejected /\
  calls refreshSession (effects (authRefreshTick fetch_fails started)) = 1%nat /\
  calls performCompleteLogout
    (effects (authRefreshTick fetch_fails started)) = 0%nat /\
  refresh_reports_error logout_fails = true /\
  calls performCompleteLogout
    (effects (authRefreshTick logout_fails started)) = 1%nat /\
  calls forceRedirectToHome
    (effects (authRefreshTick logout_fails started)) = 0%nat.
Proof. vm_compute. repeat split. Qed.

(** ** Properties no callback can break *)

Section Preserved.

Variable P : World -> Prop.

Lemma pres_ret {A} (a : A) : preserves P (ret a).
Proof. intros w H. exact H. Qed.

Lemma pres_get {A} (f : World -> A) : preserves P (get f).
Proof. intros w H. exact H. Qed.

Lemma pres_modify (f : World -> World) :
  (forall w, P w -> P (f w)) -> preserves P (modify f).
Proof. intros Hf w H. apply Hf, H. Qed.

Lemma pres_bind {A B} (m : M A) (k : A -> M B) :
  preserves P m -> (forall a, preserves P (k a)) -> preserves P (bind m k).
Proof.
  intros Hm Hk w H. pose proof (bind_cases m k w) as Hb.
  destruct (completion (m w)) as [a|c]; rewrite Hb;
    [rewrite and_then_after; apply Hk|cbn]; apply Hm, H.
Qed.

Lemma pres_forEach_in {A} (l : list A) (f : A -> M unit) :
  (forall x, In x l -> preserves P (f x)) -> preserves P (forEach l f).
Proof.
  induction l as [|x l IH]; intros Hf; cbn [forEach].
  - apply pres_ret.
  - apply pres_bind; [apply Hf; left; reflexivity|intros _].
    apply IH. intros y Hy. apply Hf. right. exact Hy.
Qed.

Lemma pres_host_call (m : M unit) : preserves P m -> preserves P (host_call m).
Proof.
  intros Hm w H. unfold host_call.
  pose proof (try_catch_cases m (fun c => emit (Uncaught c)) w) as Ht.
  destruct (completion (m w)); rewrite Ht; [|rewrite and_then_after; cbn];
    apply Hm, H.
Qed.

Lemma pres_run_reaction (r : Reaction) : preserves P (run_reaction r).
Proof.
  intros w H. destruct (reaction_leaves_world r w) as [_ ->]. exact H.
Qed.

Hypothesis P_reactions : forall w rs, P w -> P (set_reactions rs w).

Lemma pres_drain : preserves P drain.
Proof.
  unfold drain. apply pres_bind; [apply pres_get|intros rs].
  apply pres_bind; [apply pres_modify; intros w; apply P_reactions|intros _].
  apply pres_forEach_in. intros r _.
  apply pres_host_call, pres_run_reaction.
Qed.

Lemma pres_task (m : M unit) : preserves P m -> preserves P (task m).
Proof.
  intros Hm. unfold task.
  apply pres_bind; [apply pres_host_call, Hm|intros _; apply pres_drain].
Qed.

End Preserved.

Lemma host_call_completes (m : M unit) (w : World) :
  completion (host_call m w) = Normal tt.
Proof.
  unfold host_call.
  pose proof (try_catch_cases m (fun c => emit (Uncaught c)) w) as Ht.
  destruct (completion (m w)) as [[]|c] eqn:Hc; rewrite Ht;
    [exact Hc|rewrite and_then_completion; reflexivity].
Qed.

(** Once a task is over, no reaction is left waiting. *)
Lemma task_reactions_nil (m : M unit) (w : World) :
  reactions (after (task m w)) = [].
Proof.
  unfold task.
  pose proof (bind_cases (host_call m) (fun _ => drain) w) as Hb.
  rewrite host_call_completes in Hb. rewrite Hb, and_then_after.
  unfold drain, bind, get, modify. cbn. rewrite !and_then_after.
  apply (pres_forEach_in (P := fun w => reactions w = [])); [|reflexivity].
  intros r _. apply pres_host_call, pres_run_reaction.
Qed.

Lemma fire_run (id : Z) (o : Oracle) (w : World) :
  fire id o w =
    match find (fun t => timer_id t =? id) (timers w) with
    | Some t => task (timer_body (timer_callback t) o) w
    | None => ret tt w
    end.
Proof.
  unfold fire, bind, get. cbn.
  destruct (find _ (timers w)); [|reflexivity].
  destruct (task _ w); reflexivity.
Qed.

Lemma dispatch_after (ev : DomEvent) (o : Oracle) (w : World) :
  after (dispatch ev o w) =
  after (forEach (filter (fun l => DomEvent_eqb (listens_to l) ev) (listeners w))
                 (fun l => task (listener_body (listener_callback l) o)) w).
Proof.
  unfold dispatch, bind, get. cbn. apply and_then_after.
Qed.

Lemma visibility_becomes_after (v : Visibility) (o : Oracle) (w : World) :
  after (step (visibility_becomes v o) w) =
  after (dispatch visibilitychange o (set_visibilityState v w)).
Proof. cbn [step]. unfold bind, modify. cbn. apply and_then_after. Qed.

(** Between two events no reaction is waiting. *)
Lemma reactions_nil_step (e : Event) (w : World) :
  reactions w = [] -> reactions (after (step e w)) = [].
Proof.
  intros Hr.
  assert (Hd : forall ev o w', reactions w' = [] ->
                 reactions (after (dispatch ev o w')) = []).
  { intros ev o w' Hr'. rewrite dispatch_after.
    apply (pres_forEach_in (P := fun w => reactions w = [])); [|exact Hr'].
    intros l _ w'' _. apply task_reactions_nil. }
  destruct e as [o| |id o|ev o|v o];
    [cbn [step]..|rewrite visibility_becomes_after].
  - destruct (isActive w) eqn:Hact.
    + rewrite start_when_active by exact Hact. exact Hr.
    + destruct (start_when_inactive o w Hact)
        as (_ & _ & _ & _ & _ & _ & _ & _ & _ & ->). exact Hr.
  - destruct (stop_fields w) as (_ & _ & _ & _ & _ & _ & -> & _). exact Hr.
  - rewrite fire_run. destruct (find _ (timers w)); [|exact Hr].
    apply task_reactions_nil.
  - apply Hd, Hr.
  - apply Hd, Hr.
Qed.

Lemma reactions_nil_run (es : list Event) (w : World) :
  reactions w = [] -> reactions (after (run es w)) = [].
Proof.
  revert w. induction es as [|e es IH]; intros w Hr; [exact Hr|].
  destruct (run_cons e es w) as [-> _]. apply IH, reactions_nil_step, Hr.
Qed.

(** ** Before the first switch to hidden *)

Lemma Forall_update_nth {A} (Q : A -> Prop) (f : A -> A) (n : nat) (l : list A) :
  (forall x, Q x -> Q (f x)) -> Forall Q l -> Forall Q (update_nth n f l).
Proof.
  intros Hf. revert n. induction l as [|x l IH]; intros n H; [destruct n; exact H|].
  inversion H; subst. destruct n; cbn; constructor; auto.
Qed.

Lemma DomEvent_eqb_eq (a b : DomEvent) : DomEvent_eqb a b = true -> a = b.
Proof. destruct a, b; cbn; intros H; try discriminate; reflexivity. Qed.

Lemma timer_body_same_view (cb : TimerCallback) (o : Oracle) (w : World) :
  same_view w (after (timer_body cb o w)).
Proof.
  destruct cb as [| |c]; cbn [timer_body].
  - unfold authRefreshTick. oracle_cases o; step_through;
      try destruct (needs_refresh _); split; reflexivity.
  - unfold connectionPingTick. step_through.
    destruct (race (probe o)) as [[[err|]]|]; cbn; try (split; reflexivity).
    split_code err "PGRST116"%string; cbn; [split; reflexivity|].
    split_code err "TIMEOUT"%string; split; reflexivity.
  - rewrite idleCheckTick_run. destruct (_ && _); split; reflexivity.
Qed.

Lemma never_hidden_view (w w' : World) :
  same_view w w' -> never_hidden w -> never_hidden w'.
Proof. unfold never_hidden. intros [-> _] H. exact H. Qed.

Lemma shown_never_hidden_view (w w' : World) :
  same_view w w' -> shown_never_hidden w -> shown_never_hidden w'.
Proof. unfold shown_never_hidden, never_hidden. intros [-> ->] H. exact H. Qed.

Lemma onVisibilityChange_keeps_shown (c : nat) (o : Oracle) :
  preserves shown_never_hidden (onVisibilityChange c o).
Proof.
  intros w [Hv Hz]. unfold onVisibilityChange. step_through. rewrite Hv.
  destruct (nth_error (closures w) c) as [l|]; cbn; [|split; assumption].
  destruct (should_recover _ _); cbn; (split; [exact Hv|]);
    unfold never_hidden; cbn; apply Forall_update_nth; auto.
Qed.

Lemma listener_body_keeps_shown (cb : ListenerCallback) (o : Oracle) :
  preserves shown_never_hidden (listener_body cb o).
Proof.
  destruct cb as [|c]; cbn [listener_body].
  - intros w H. apply (shown_never_hidden_view (w := w)); [|exact H].
    split; reflexivity.
  - apply onVisibilityChange_keeps_shown.
Qed.

Lemma never_hidden_step (e : Event) (w : World) :
  not_hiding e -> Inv w -> never_hidden w -> never_hidden (after (step e w)).
Proof.
  intros He HI Hz.
  destruct e as [o| |id o|ev o|v o];
    [cbn [step]..|rewrite visibility_becomes_after].
  - destruct (isActive w) eqn:Hact.
    + rewrite start_when_active by exact Hact. exact Hz.
    + destruct (start_when_inactive o w Hact)
        as (_ & _ & _ & _ & _ & Hcl & _).
      unfold never_hidden. rewrite Hcl. apply Forall_app. split; [exact Hz|].
      repeat constructor.
  - destruct (stop_fields w) as (_ & Hcl & _).
    unfold never_hidden. rewrite Hcl. exact Hz.
  - rewrite fire_run. destruct (find _ (timers w)) as [t|]; [|exact Hz].
    apply (pres_task (P := never_hidden)); [auto| |exact Hz].
    intros w' H. apply (never_hidden_view (w := w')); [|exact H].
    apply timer_body_same_view.
  - rewrite dispatch_after.
    apply (pres_forEach_in (P := never_hidden)); [|exact Hz].
    intros l Hin. apply filter_In in Hin as [Hin Hev].
    apply DomEvent_eqb_eq in Hev.
    assert (Hcb : listener_callback l = UpdateActivityCb).
    { apply (inv_listeners HI); [exact Hin|]. rewrite Hev.
      destruct ev; cbn in He; try discriminate. contradiction. }
    rewrite Hcb. apply pres_task; [auto|].
    intros w' H. apply (never_hidden_view (w := w')); [|exact H].
    split; reflexivity.
  - destruct v; [|contradiction].
    rewrite dispatch_after.
    apply (pres_forEach_in (P := shown_never_hidden));
      [|split; [reflexivity|exact Hz]].
    intros l _. apply pres_task; [|apply listener_body_keeps_shown].
    intros w' rs H. exact H.
Qed.

Lemma never_hidden_run (es : list Event) (w : World) :
  Forall not_hiding es -> Inv w -> never_hidden w ->
  never_hidden (after (run es w)).
Proof.
  revert w. induction es as [|e es IH]; intros w Hes HI Hz; [exact Hz|].
  inversion Hes; subst. destruct (run_cons e es w) as [-> _].
  apply IH; [assumption|apply Inv_step, HI|apply never_hidden_step; assumption].
Qed.

(** C10: [lastHiddenTime] starts at 0, so when the document becomes visible
    before any switch to hidden has been recorded, a listener computes a
    [hiddenDuration] equal to the clock reading; that reading being more than
    one second past the epoch, the test of line 190 passes and the whole
    recovery runs: the session refresh is started, [reconnectNow] is called
    and [app:refresh] is broadcast, whatever time the tab really spent
    hidden. *)
Theorem first_visible_event_recovers
    (t0 : Z) (v : Visibility) (es : list Event)
    (c : nat) (l : VisibilityLocals) (o : Oracle) :
  Forall not_hiding es ->
  let w := after (run es (initial t0 v)) in
  nth_error (closures w) c = Some l ->
  1000 < Date_now o Line185 ->
  let hiddenDuration := Date_now o Line185 - lastHiddenTime l in
  let r := task (onVisibilityChange c o) (set_visibilityState visible w) in
  In {| listens_to := visibilitychange; listener_callback := VisibilityCb c |}
     (listeners w) /\
  lastHiddenTime l = 0 /\
  hiddenDuration = Date_now o Line185 /\
  hiddenDuration > 1000 /\
  calls getSession (effects r) = 1%nat /\
  calls refreshSession (effects r) = (if session_fetched o then 1 else 0)%nat /\
  calls reconnectNow (effects r) = 1%nat /\
  broadcasts (effects r) =
    [DispatchAppRefresh "visibility-change" (Some (Date_now o Line185))].
Proof.
  intros Hes w Hl Hnow hd r.
  assert (HI : Inv w) by apply Inv_run, Inv_initial.
  assert (Hz : never_hidden w).
  { apply never_hidden_run; [exact Hes|apply Inv_initial|constructor]. }
  assert (Hr : reactions w = []) by (apply reactions_nil_run; reflexivity).
  assert (Hl0 : lastHiddenTime l = 0).
  { unfold never_hidden in Hz. rewrite Forall_forall in Hz.
    apply Hz. eapply nth_error_In, Hl. }
  assert (Hhd : hd = Date_now o Line185) by (unfold hd; lia).
  split.
  { apply (inv_handlers HI). apply nth_error_Some. congruence. }
  split; [exact Hl0|]. split; [exact Hhd|]. split; [lia|].
  destruct (@visibility_recovery c o (set_visibilityState visible w) l)
    as (_ & Hg & Hn & Hb & Hf); try assumption; try reflexivity.
  { apply should_recover_spec. fold hd. lia. }
  fold r hd in Hg, Hn, Hb, Hf. rewrite Hhd in Hb. auto.
Qed.

(** ** The statements at work on the sample pages *)

Lemma refresh_iff_outside_window_witness :
  calls refreshSession
    (effects (authRefreshTick expiring_in_2_minutes started)) = 1%nat /\
  calls refreshSession
    (effects (authRefreshTick expiring_in_30_minutes started)) = 0%nat.
Proof.
  split.
  - destruct (@refresh_iff_outside_window expiring_in_2_minutes started
                _ _ eq_refl eq_refl eq_refl) as (_ & _ & _ & H & _).
    apply H. reflexivity.
  - destruct (@refresh_iff_outside_window expiring_in_30_minutes started
                _ _ eq_refl eq_refl eq_refl) as (_ & _ & _ & _ & H).
    apply H. reflexivity.
Defined.

Lemma absent_expiry_always_refreshes_witness :
  calls refreshSession
    (effects (authRefreshTick no_expiry_refresh_invalid started)) = 1%nat.
Proof.
  apply (@absent_expiry_always_refreshes no_expiry_refresh_invalid started
           _ _ eq_refl eq_refl eq_refl eq_refl).
  reflexivity.
Defined.

Lemma logout_and_redirect_paths_witness :
  effects (authRefreshTick no_expiry_refresh_invalid started) =
    [Call getSession;
     Call refreshSession;
     Console warn "KeepAlive: Token refresh error, forcing logout:";
     Call importLogoutUtils;
     Call performCompleteLogout;
     Call forceRedirectToHome].
Proof.
  destruct (logout_and_redirect_paths 0 no_expiry_refresh_invalid started)
    as (H & _).
  apply H; reflexivity.
Defined.


Lemma timer_callbacks_exceptions_witness :
  completion (authRefreshTick_when Throws no_expiry_refresh_invalid started) =
    Normal tt /\
  completion (connectionPingTick_when Throws Returns probe_hangs started) =
    Normal tt /\
  calls reconnectNow
    (effects (connectionPingTick_when Throws Returns probe_hangs started)) =
    2%nat /\
  completion
    (connectionPingTick_when Throws Throws (next_probe answers_in_time) started) =
    Normal tt /\
  uncaught
    (effects
       (host_call
          (connectionPingTick_when Returns Throws (next_probe rejected_in_time))
          started)) = [Uncaught reconnectNow] /\
  schedule
    (after
       (host_call
          (connectionPingTick_when Returns Throws (next_probe rejected_in_time))
          started)) = schedule started.
Proof.
  destruct timer_callbacks_exceptions as (Hauth & Hping & _).
  split; [apply Hauth|].
  destruct (Hping Throws Returns probe_hangs started)
    as (Hreturns & _ & _ & _ & Htwice & _).
  split; [apply Hreturns; reflexivity|].
  split; [apply Htwice; [reflexivity|reflexivity|discriminate]|].
  destruct (Hping Throws Throws (next_probe answers_in_time) started)
    as (_ & Hquiet & _).
  split; [apply Hquiet; reflexivity|].
  destruct (Hping Returns Throws (next_probe rejected_in_time) started)
    as (_ & _ & Hiff & _ & _ & _ & Hs & _ & Hu).
  split; [apply Hu, Hiff; split; reflexivity|exact Hs].
Defined.

Lemma idle_check_refreshes_witness :
  broadcasts (effects (task (idleCheckTick 0 after_11_minutes) started)) =
    [DispatchAppRefresh "idle-refresh" None] /\
  lastActivity (after (task (idleCheckTick 0 after_11_minutes) started)) =
    sample_now + 11 * 60 * 1000.
Proof.
  destruct (@idle_check_refreshes 0 after_11_minutes started eq_refl)
    as (_ & _ & H & _).
  destruct H as (_ & _ & Hb & Ha); [split; reflexivity|].
  split; [exact Hb|exact Ha].
Defined.

Lemma first_visible_event_recovers_witness :
  broadcasts
    (effects
       (task (onVisibilityChange 0 after_65_seconds)
          (set_visibilityState visible
             (after (run loaded_hidden (initial sample_now hidden)))))) =
    [DispatchAppRefresh "visibility-change" (Some (sample_now + 65000))].
Proof.
  assert (Hquiet : Forall not_hiding loaded_hidden)
    by (repeat constructor).
  destruct (@first_visible_event_recovers sample_now hidden loaded_hidden 0
              _ after_65_seconds Hquiet eq_refl eq_refl)
    as (_ & _ & _ & _ & _ & _ & _ & H).
  exact H.
Defined.

(** * More of the manager *)

(** ** Listeners and idle checks are installed for good *)

Lemma stop_keeps_idle_checks (w : World) :
  Inv w ->
  filter is_idle_check (timers (after (stop w))) =
  filter is_idle_check (timers w).
Proof.
  intros HI. destruct (isActive w) eqn:Hact.
  - pose proof (inv_stored HI) as Hst. rewrite Hact in Hst.
    destruct Hst as (a & p & Ha & Hp & Hpa & Hpp).
    destruct (In_pending _ _ Hpa) as [Hina _].
    destruct (In_pending _ _ Hpp) as [Hinp _].
    pose proof (inv_ids HI _ Hina) as Hida.
    pose proof (inv_ids HI _ Hinp) as Hidp. cbn in Hida, Hidp.
    destruct (stop_when_active w Ha Hp) as (_ & _ & ->); [lia..|].
    rewrite filter_absorb.
    + apply filter_absorb. intros t Hin Hidle.
      destruct (Z.eqb_spec (timer_id t) a) as [Heq|]; [|reflexivity].
      rewrite (@unique_handle _ _ _ (inv_nodup HI) Hin Hina Heq) in Hidle.
      discriminate.
    + intros t Hin Hidle. apply filter_In in Hin as [Hin _].
      destruct (Z.eqb_spec (timer_id t) p) as [Heq|]; [|reflexivity].
      rewrite (@unique_handle _ _ _ (inv_nodup HI) Hin Hinp Heq) in Hidle.
      discriminate.
  - pose proof (inv_stored HI) as Hst. rewrite Hact in Hst.
    destruct Hst as (Ha & Hp & _).
    destruct (stop_when_inactive w Ha Hp) as (_ & _ & ->). reflexivity.
Qed.

Lemma Installed_schedule (w w' : World) :
  schedule w' = schedule w -> Installed w -> Installed w'.
Proof.
  unfold schedule. intros Hs [Hl Hi].
  injection Hs as _ _ _ Hts _ Hlen Hls.
  constructor; rewrite ?Hts, Hlen, ?Hls; assumption.
Qed.

Lemma Installed_initial (t0 : Z) (v : Visibility) : Installed (initial t0 v).
Proof. constructor; reflexivity. Qed.

Lemma Installed_start (o : Oracle) (w : World) :
  Installed w -> Installed (after (start o w)).
Proof.
  intros [Hl Hi]. destruct (isActive w) eqn:Hact.
  - rewrite start_when_active by exact Hact. constructor; assumption.
  - destruct (start_when_inactive o w Hact)
      as (_ & _ & _ & Hts & _ & Hcl & Hlis & _).
    constructor.
    + rewrite Hlis, Hcl, length_app, Hl. cbn [List.length].
      rewrite Nat.add_1_r, seq_S, flat_map_app. cbn [flat_map Nat.add].
      rewrite app_nil_r. reflexivity.
    + rewrite Hts, Hcl, length_app, filter_app, map_app, Hi.
      cbn [List.length]. rewrite Nat.add_1_r, seq_S, map_app. reflexivity.
Qed.

Lemma Installed_step (e : Event) (w : World) :
  Inv w -> Installed w -> Installed (after (step e w)).
Proof.
  intros HI HT. destruct e as [o| |id o|ev o|v o]; cbn [step].
  - apply Installed_start, HT.
  - destruct HT as [Hl Hi].
    destruct (stop_fields w) as (_ & Hcl & _ & _ & Hlis & _).
    constructor.
    + rewrite Hlis, Hcl. exact Hl.
    + rewrite (stop_keeps_idle_checks HI), Hcl. exact Hi.
  - apply (Installed_schedule (w := w)); [apply ks_fire|exact HT].
  - apply (Installed_schedule (w := w)); [apply ks_dispatch|exact HT].
  - apply (Installed_schedule (w := w)); [|exact HT].
    apply (ks_bind (m := modify (set_visibilityState v))).
    + apply ks_modify. reflexivity.
    + intros _. apply ks_dispatch.
Qed.

Lemma Installed_run (es : list Event) (w : World) :
  Inv w -> Installed w -> Installed (after (run es w)).
Proof.
  revert w. induction es as [|e es IH]; intros w HI HT; [exact HT|].
  destruct (run_cons e es w) as [-> _].
  apply IH; [apply Inv_step, HI|apply Installed_step; assumption].
Qed.

Lemma cycles_closures (n : nat) (o : Oracle) (w : World) :
  Inv w -> isActive w = false ->
  List.length (closures (after (run (cycles n o) w))) =
  (List.length (closures w) + n)%nat.
Proof.
  revert w. induction n as [|n IH]; intros w HI Hact; [cbn; lia|].
  cbn [cycles].
  destruct (run_cons (call_start o) (call_stop :: cycles n o) w) as [-> _].
  destruct (run_cons call_stop (cycles n o) (after (step (call_start o) w)))
    as [-> _].
  cbn [step].
  destruct (start_when_inactive o w Hact) as (_ & _ & _ & _ & _ & Hcl & _).
  destruct (stop_fields (after (start o w))) as (Hact' & Hcl' & _).
  rewrite IH; [|apply Inv_stop, Inv_start, HI|exact Hact'].
  rewrite Hcl', Hcl, length_app. cbn. lia.
Qed.

(** X2: no listener is ever removed.  After any history the document holds
    exactly seven listeners of the manager (six activity trackers and one
    visibility listener) for every [start()] that took effect; [stop()]
    leaves all of them in place, so [n] rounds of start/stop leave [7 n]. *)
Theorem listeners_only_accumulate
    (t0 : Z) (v : Visibility) (es : list Event) (n : nat) (o : Oracle) :
  let w := after (run es (initial t0 v)) in
  List.length (listeners w) = (7 * List.length (closures w))%nat /\
  listeners (after (stop w)) = listeners w /\
  List.length (listeners (after (run (cycles n o) (initial t0 v)))) =
    (7 * n)%nat.
Proof.
  assert (Hcount : forall w, Installed w ->
            List.length (listeners w) = (7 * List.length (closures w))%nat).
  { intros w [Hl _]. rewrite Hl.
    generalize (List.length (closures w)). intros k.
    induction k as [|k IH]; [reflexivity|].
    rewrite seq_S, flat_map_app, length_app, IH. cbn. lia. }
  intros w. split; [|split].
  - apply Hcount, Installed_run; [apply Inv_initial|apply Installed_initial].
  - apply stop_fields.
  - rewrite Hcount
      by (apply Installed_run; [apply Inv_initial|apply Installed_initial]).
    rewrite cycles_closures by (apply Inv_initial || reflexivity).
    reflexivity.
Qed.

(** ** What an event runs *)

Lemma filter_flat_map {A B} (f : B -> bool) (g : A -> list B) (l : list A) :
  filter f (flat_map g l) = flat_map (fun x => filter f (g x)) l.
Proof.
  induction l as [|x l IH]; cbn; [reflexivity|].
  rewrite filter_app, IH. reflexivity.
Qed.

Lemma flat_map_singleton {A B} (g : A -> B) (l : list A) :
  flat_map (fun x => [g x]) l = map g l.
Proof. induction l as [|x l IH]; cbn; [|rewrite IH]; reflexivity. Qed.

(** The listeners an activity event reaches: one tracker per [start()] that
    took effect. *)
Lemma activity_listeners (ev : DomEvent) (w : World) :
  Installed w -> In ev activity_events ->
  filter (fun l => DomEvent_eqb (listens_to l) ev) (listeners w) =
  map (fun _ => {| listens_to := ev; listener_callback := UpdateActivityCb |})
      (seq 0 (List.length (closures w))).
Proof.
  intros [Hl _] Hev. rewrite Hl, filter_flat_map, <- flat_map_singleton.
  apply flat_map_ext. intros c.
  cbn in Hev. intuition (subst; try reflexivity; contradiction).
Qed.

(** The listeners a [visibilitychange] reaches: one per closure, in order. *)
Lemma visibility_listeners (w : World) :
  Installed w ->
  filter (fun l => DomEvent_eqb (listens_to l) visibilitychange) (listeners w) =
  map (fun c => {| listens_to := visibilitychange;
                   listener_callback := VisibilityCb c |})
      (seq 0 (List.length (closures w))).
Proof.
  intros [Hl _]. rewrite Hl, filter_flat_map, <- flat_map_singleton.
  apply flat_map_ext. intros c. reflexivity.
Qed.

Lemma forEach_cons {A} (f : A -> M unit) (x : A) (l : list A) (w : World) :
  completion (f x w) = Normal tt ->
  after (forEach (x :: l) f w) = after (forEach l f (after (f x w))) /\
  effects (forEach (x :: l) f w) =
    effects (f x w) ++ effects (forEach l f (after (f x w))).
Proof.
  intros Hc. cbn [forEach].
  pose proof (bind_cases (f x) (fun _ => forEach l f) w) as Hb.
  rewrite Hc in Hb. rewrite Hb, and_then_after, and_then_effects.
  split; reflexivity.
Qed.

Lemma dispatch_effects (ev : DomEvent) (o : Oracle) (w : World) :
  effects (dispatch ev o w) =
  effects (forEach (filter (fun l => DomEvent_eqb (listens_to l) ev) (listeners w))
                   (fun l => task (listener_body (listener_callback l) o)) w).
Proof. unfold dispatch, bind, get. cbn. rewrite and_then_effects. reflexivity. Qed.

Lemma visibility_becomes_effects (v : Visibility) (o : Oracle) (w : World) :
  effects (step (visibility_becomes v o) w) =
  effects (dispatch visibilitychange o (set_visibilityState v w)).
Proof.
  cbn [step]. unfold bind, modify. cbn. rewrite and_then_effects. reflexivity.
Qed.

(** ** Activity tracking *)

Lemma task_updateActivity (o : Oracle) (w : World) :
  reactions w = [] ->
  task (updateActivity o) w =
    {| completion := Normal tt;
       after := set_reactions [] (set_lastActivity (Date_now o Line63) w);
       effects := [] |}.
Proof.
  intros Hr. apply task_without_reaction; [reflexivity|exact Hr].
Qed.

Lemma trackers_run (o : Oracle) (ev : DomEvent) (k : list nat) (w : World) :
  reactions w = [] ->
  let r :=
    forEach
      (map (fun _ : nat =>
              {| listens_to := ev; listener_callback := UpdateActivityCb |}) k)
      (fun l => task (listener_body (listener_callback l) o)) w in
  effects r = [] /\
  closures (after r) = closures w /\
  lastActivity (after r) =
    match k with
    | [] => lastActivity w
    | _ :: _ => Date_now o Line63
    end.
Proof.
  revert w. induction k as [|c k IH]; intros w Hr; [repeat split|].
  cbn [map].
  set (f := fun l => task (listener_body (listener_callback l) o)).
  set (x := {| listens_to := ev; listener_callback := UpdateActivityCb |}).
  assert (Hfx : f x w =
            {| completion := Normal tt;
               after := set_reactions []
                          (set_lastActivity (Date_now o Line63) w);
               effects := [] |})
    by (unfold f, x; cbn [listener_callback listener_body];
        apply task_updateActivity, Hr).
  destruct (@forEach_cons _ f x (map (fun _ => x) k) w) as [Ha He];
    [rewrite Hfx; reflexivity|].
  rewrite Hfx in Ha, He. cbn [after effects app] in Ha, He.
  cbn zeta. rewrite Ha, He. unfold f, x.
  destruct (IH (set_reactions [] (set_lastActivity (Date_now o Line63) w))
              eq_refl) as (He' & Hc' & Hl').
  cbn zeta in He', Hc', Hl'. rewrite He', Hc', Hl'.
  repeat split. destruct k; reflexivity.
Qed.

(** X1: once [start()] has taken effect (and also after a later [stop()]),
    each mousedown, mousemove, keypress, scroll, touchstart or click sets
    [lastActivity] to the clock reading and does nothing else: no effect, no
    timer, listener or closure touched.  Before the first [start()] such an
    event changes nothing at all. *)
Theorem activity_event_records_time
    (t0 : Z) (v : Visibility) (es : list Event) (ev : DomEvent) (o : Oracle) :
  In ev activity_events ->
  let w := after (run es (initial t0 v)) in
  let r := step (user_input ev o) w in
  completion r = Normal tt /\
  effects r = [] /\
  schedule (after r) = schedule w /\
  closures (after r) = closures w /\
  (closures w <> [] -> getLastActivity (after r) = Date_now o Line63) /\
  (isActive w = true -> getLastActivity (after r) = Date_now o Line63) /\
  (closures w = [] -> getLastActivity (after r) = getLastActivity w).
Proof.
  intros Hev w r.
  assert (HI : Inv w) by apply Inv_run, Inv_initial.
  assert (HT : Installed w)
    by (apply Installed_run; [apply Inv_initial|apply Installed_initial]).
  assert (Hr : reactions w = []) by (apply reactions_nil_run; reflexivity).
  destruct (safe_step (user_input ev o) w) as [[[] Hc] _]. fold r in Hc.
  pose proof (ks_dispatch ev o w) as Hs.
  pose proof (dispatch_after ev o w) as Ha.
  pose proof (dispatch_effects ev o w) as He.
  rewrite (activity_listeners HT Hev) in Ha, He.
  destruct (@trackers_run o ev (seq 0 (List.length (closures w))) w Hr)
    as (He' & Hc' & Hl').
  cbn zeta in He', Hc', Hl'.
  assert (Hlast : closures w <> [] ->
            getLastActivity (after r) = Date_now o Line63).
  { intros Hne. unfold r, getLastActivity. cbn [step]. rewrite Ha, Hl'.
    destruct (closures w); [contradiction|reflexivity]. }
  split; [exact Hc|]. split; [unfold r; cbn [step]; rewrite He; exact He'|].
  split; [exact Hs|]. split; [unfold r; cbn [step]; rewrite Ha; exact Hc'|].
  split; [exact Hlast|]. split.
  - intros Hact. apply Hlast. pose proof (inv_started HI Hact) as Hlen.
    destruct (closures w); [cbn in Hlen; lia|discriminate].
  - intros Hnil. unfold r, getLastActivity. cbn [step]. rewrite Ha, Hl', Hnil.
    reflexivity.
Qed.

(** ** One recovery per installed listener *)

Lemma listeners_recover (o : Oracle) (cs : list nat) (w : World) :
  1000 < Date_now o Line185 ->
  reactions w = [] ->
  shown_never_hidden w ->
  (forall c, In c cs -> (c < List.length (closures w))%nat) ->
  let r :=
    forEach
      (map (fun c => {| listens_to := visibilitychange;
                        listener_callback := VisibilityCb c |}) cs)
      (fun l => task (listener_body (listener_callback l) o)) w in
  List.length (broadcasts (effects r)) = List.length cs /\
  calls reconnectNow (effects r) = List.length cs /\
  calls getSession (effects r) = List.length cs.
Proof.
  intros Hnow. revert w.
  induction cs as [|c cs IH]; intros w Hr Hq Hcs; [repeat split|].
  cbn [map].
  set (f := fun l => task (listener_body (listener_callback l) o)).
  set (x := {| listens_to := visibilitychange;
               listener_callback := VisibilityCb c |}).
  assert (Hfx : f x w = task (onVisibilityChange c o) w) by reflexivity.
  destruct Hq as [Hv Hz].
  assert (Hc : (c < List.length (closures w))%nat)
    by (apply Hcs; left; reflexivity).
  destruct (nth_error (closures w) c) as [l|] eqn:Hl;
    [|apply nth_error_None in Hl; lia].
  assert (Hl0 : lastHiddenTime l = 0).
  { unfold never_hidden in Hz. rewrite Forall_forall in Hz.
    apply Hz. eapply nth_error_In, Hl. }
  destruct (@visibility_recovery c o w l Hr Hv Hl)
    as (Hcomp & Hg & Hn & Hb & _).
  { apply should_recover_spec. left. rewrite Hl0. lia. }
  rewrite <- Hfx in Hcomp, Hg, Hn, Hb.
  destruct (@forEach_cons _ f x
              (map (fun c => {| listens_to := visibilitychange;
                                listener_callback := VisibilityCb c |}) cs)
              w Hcomp) as [_ He].
  cbn zeta. rewrite He, broadcasts_app, !calls_app, !length_app, Hg, Hn, Hb.
  destruct (IH (after (f x w))) as (Hb' & Hn' & Hg').
  - rewrite Hfx. apply task_reactions_nil.
  - rewrite Hfx. apply (pres_task (P := shown_never_hidden)).
    + intros w' rs H. exact H.
    + apply onVisibilityChange_keeps_shown.
    + split; assumption.
  - intros c' Hc'. rewrite Hfx.
    pose proof (ks_task (ks_onVisibilityChange c o) w) as Hs.
    unfold schedule in Hs. injection Hs as _ _ _ _ _ Hlen _.
    rewrite Hlen. apply Hcs. right. exact Hc'.
  - cbn zeta in Hb', Hn', Hg'. unfold f in *.
    rewrite Hb', Hn', Hg'. repeat split.
Qed.

Lemma cycles_not_hiding (n : nat) (o : Oracle) : Forall not_hiding (cycles n o).
Proof. induction n; cbn; repeat constructor; assumption. Qed.

(** X3: every [start()] that took effect has left its own visibility
    listener behind, and each one recovers on its own.  When the document
    becomes visible before any switch to hidden was recorded, the session
    fetch, [reconnectNow] and the [app:refresh] broadcast each happen once
    per such [start()]: after [n] rounds of start/stop, [n] times for one
    event. *)
Theorem restarts_multiply_recovery
    (t0 : Z) (v : Visibility) (es : list Event) (n : nat) (o0 o : Oracle) :
  Forall not_hiding es ->
  1000 < Date_now o Line185 ->
  (let w := after (run es (initial t0 v)) in
   let r := step (visibility_becomes visible o) w in
   List.length (broadcasts (effects r)) = List.length (closures w) /\
   calls reconnectNow (effects r) = List.length (closures w) /\
   calls getSession (effects r) = List.length (closures w)) /\
  (let w := after (run (cycles n o0) (initial t0 v)) in
   let r := step (visibility_becomes visible o) w in
   getActive w = false /\
   List.length (broadcasts (effects r)) = n /\
   calls reconnectNow (effects r) = n).
Proof.
  intros Hes Hnow.
  assert (Hgen : forall es', Forall not_hiding es' ->
            let w := after (run es' (initial t0 v)) in
            let r := step (visibility_becomes visible o) w in
            List.length (broadcasts (effects r)) = List.length (closures w) /\
            calls reconnectNow (effects r) = List.length (closures w) /\
            calls getSession (effects r) = List.length (closures w)).
  { intros es' Hes' w r.
    assert (HT : Installed w)
      by (apply Installed_run; [apply Inv_initial|apply Installed_initial]).
    assert (Hz : never_hidden w).
    { apply never_hidden_run; [exact Hes'|apply Inv_initial|constructor]. }
    assert (Hr : reactions w = []) by (apply reactions_nil_run; reflexivity).
    unfold r. rewrite visibility_becomes_effects, dispatch_effects.
    cbn [listeners set_visibilityState].
    rewrite (visibility_listeners HT).
    destruct (@listeners_recover o (seq 0 (List.length (closures w)))
                (set_visibilityState visible w) Hnow Hr)
      as (Hb & Hn & Hg).
    - split; [reflexivity|exact Hz].
    - intros c Hc. apply in_seq in Hc. cbn. lia.
    - cbn zeta in Hb, Hn, Hg. rewrite length_seq in Hb, Hn, Hg. auto. }
  split; [apply Hgen, Hes|].
  destruct (Hgen (cycles n o0) (cycles_not_hiding n o0)) as (Hb & Hn & _).
  cbn zeta in Hb, Hn.
  rewrite cycles_closures in Hb, Hn by (apply Inv_initial || reflexivity).
  cbn in Hb, Hn. cbn zeta.
  split; [|split; assumption].
  apply (cycles_leak n o0 t0 v).
Qed.

(** ** stop(), again *)

(** X4: [stop()] is idempotent on every state, reachable or not: a second
    [stop()] right after the first changes no field and no timer, it only
    logs its line again. *)
Theorem stop_is_idempotent (w : World) :
  let w1 := after (stop w) in
  completion (stop w1) = Normal tt /\
  after (stop w1) = w1 /\
  effects (stop w1) = [Console log "KeepAlive Manager stopped"].
Proof.
  unfold stop. step_through.
  destruct (truthy (authRefreshInterval w)) eqn:Ea; cbn;
    destruct (truthy (connectionPingInterval w)) eqn:Ep; cbn;
    rewrite ?Ea, ?Ep; cbn; rewrite ?Ea, ?Ep; cbn; repeat split.
Qed.

(** ** The auth-refresh tick, every case *)

(** X9: an auth-refresh tick issues exactly one [getSession].  It calls
    [refreshSession] exactly once when the fetch reports an error (the
    recovery attempt, which never escalates) or when a session is due for a
    refresh, and not at all otherwise (no session, a rejected fetch, a session
    inside the window).  It never changes the state of the page, so a
    refreshed session does not count as activity, and it never reconnects,
    probes or broadcasts. *)
Theorem auth_tick_profile (o : Oracle) (w : World) :
  let r := authRefreshTick o w in
  after r = w /\
  calls getSession (effects r) = 1%nat /\
  calls refreshSession (effects r) =
    (if fetch_reports_error o || due_for_refresh o then 1 else 0)%nat /\
  (fetch_reports_error o = true -> no_escalation (effects r)) /\
  calls reconnectNow (effects r) = 0%nat /\
  calls probeQuery (effects r) = 0%nat /\
  broadcasts (effects r) = [].
Proof.
  unfold authRefreshTick, fetch_reports_error, due_for_refresh, no_escalation.
  oracle_cases o; step_through;
    try destruct (needs_refresh _); cbn; repeat split; discriminate.
Qed.

(** ** What a stopped manager no longer does, and what it still does *)

Lemma nc_ret {A} (c : ExternalCall) (a : A) : never_calls c (ret a).
Proof. intros w. reflexivity. Qed.

Lemma nc_get {A} (c : ExternalCall) (f : World -> A) : never_calls c (get f).
Proof. intros w. reflexivity. Qed.

Lemma nc_modify (c : ExternalCall) (f : World -> World) :
  never_calls c (modify f).
Proof. intros w. reflexivity. Qed.

Lemma nc_bind {A B} (c : ExternalCall) (m : M A) (k : A -> M B) :
  never_calls c m -> (forall a, never_calls c (k a)) -> never_calls c (bind m k).
Proof.
  intros Hm Hk w. pose proof (bind_cases m k w) as Hb.
  destruct (completion (m w)) as [a|x]; rewrite Hb.
  - rewrite and_then_effects, calls_app, Hm, Hk. reflexivity.
  - apply Hm.
Qed.

Lemma nc_forEach {A} (c : ExternalCall) (l : list A) (f : A -> M unit) :
  (forall x, never_calls c (f x)) -> never_calls c (forEach l f).
Proof.
  intros Hf. induction l as [|x l IH]; cbn [forEach].
  - apply nc_ret.
  - apply nc_bind; [apply Hf|intros _; exact IH].
Qed.

Lemma nc_host_call (c : ExternalCall) (m : M unit) :
  never_calls c m -> never_calls c (host_call m).
Proof.
  intros Hm w. unfold host_call.
  pose proof (try_catch_cases m (fun x => emit (Uncaught x)) w) as Ht.
  destruct (completion (m w)); rewrite Ht; [apply Hm|].
  rewrite and_then_effects, calls_app, Hm. reflexivity.
Qed.

Lemma nc_task (c : ExternalCall) (m : M unit) :
  (forall r, never_calls c (run_reaction r)) ->
  never_calls c m -> never_calls c (task m).
Proof.
  intros Hr Hm. unfold task, drain.
  apply nc_bind; [apply nc_host_call, Hm|intros _].
  apply nc_bind; [apply nc_get|intros rs].
  apply nc_bind; [apply nc_modify|intros _].
  apply nc_forEach. intros r. apply nc_host_call, Hr.
Qed.

Lemma reactions_never_probe (r : Reaction) : never_calls probeQuery (run_reaction r).
Proof.
  intros w. destruct r as [o|o]; cbn;
    [unfold visibilityRefreshReaction|unfold idleRefreshReaction];
    oracle_cases o; step_through; reflexivity.
Qed.

Lemma idle_check_never_probes (c : nat) (o : Oracle) :
  never_calls probeQuery (idleCheckTick c o).
Proof.
  intros w. rewrite idleCheckTick_run. destruct (_ && _); reflexivity.
Qed.

Lemma listeners_never_probe (cb : ListenerCallback) (o : Oracle) :
  never_calls probeQuery (listener_body cb o).
Proof.
  intros w. destruct cb as [|c]; cbn [listener_body]; [reflexivity|].
  unfold onVisibilityChange. step_through.
  destruct (nth_error (closures w) c) as [l|]; cbn; [|reflexivity].
  destruct (Visibility_eqb _ _); cbn; [|reflexivity].
  destruct (should_recover _ _); reflexivity.
Qed.

Lemma dispatch_never_probes (ev : DomEvent) (o : Oracle) :
  never_calls probeQuery (dispatch ev o).
Proof.
  unfold dispatch. apply nc_bind; [apply nc_get|intros ls].
  apply nc_forEach. intros l.
  apply nc_task; [apply reactions_never_probe|apply listeners_never_probe].
Qed.

Lemma stopped_step (e : Event) (w : World) :
  no_start e -> Inv w -> isActive w = false ->
  calls probeQuery (effects (step e w)) = 0%nat /\
  isActive (after (step e w)) = false.
Proof.
  intros He HI Hact.
  assert (Hks : forall m : M unit, keeps_schedule m ->
            isActive (after (m w)) = false).
  { intros m Hm. pose proof (Hm w) as Hs. unfold schedule in Hs.
    injection Hs as _ _ Ha _ _ _ _. congruence. }
  destruct e as [o| |id o|ev o|v o]; [contradiction|cbn [step]..].
  - destruct (stop_fields w) as (Ha & _ & _ & -> & _). auto.
  - split; [|apply Hks, ks_fire]. rewrite fire_run.
    destruct (find _ (timers w)) as [t|] eqn:Hfind; [|reflexivity].
    apply find_some in Hfind as [Hin _].
    rewrite (only_idle_checks_when_inactive HI Hact) in Hin.
    apply filter_In in Hin as [_ Hidle]. unfold is_idle_check in Hidle.
    destruct (timer_callback t) as [| |c]; try discriminate.
    apply nc_task; [apply reactions_never_probe|apply idle_check_never_probes].
  - split; [apply dispatch_never_probes|apply Hks, ks_dispatch].
  - split.
    + apply (nc_bind (m := modify (set_visibilityState v)));
        [apply nc_modify|intros _; apply dispatch_never_probes].
    + apply Hks. apply (ks_bind (m := modify (set_visibilityState v))).
      * apply ks_modify. reflexivity.
      * intros _. apply ks_dispatch.
Qed.

Lemma stopped_run (es : list Event) (w : World) :
  Forall no_start es -> Inv w -> isActive w = false ->
  calls probeQuery (effects (run es w)) = 0%nat /\
  isActive (after (run es w)) = false.
Proof.
  revert w. induction es as [|e es IH]; intros w Hes HI Hact; [auto|].
  inversion Hes; subst.
  destruct (run_cons e es w) as [-> ->].
  destruct (stopped_step e H1 HI Hact) as [Hp Ha].
  destruct (IH (after (step e w))) as [Hp' Ha'];
    [assumption|apply Inv_step, HI|exact Ha|].
  rewrite calls_app, Hp, Hp'. auto.
Qed.

(** X5: from a [stop()] until the next [start()], whatever timers fire and
    whatever the user does, the connection probe is never issued again, the
    manager stays inactive and no auth-refresh or connection-ping timer
    exists. *)
Theorem no_probe_while_stopped
    (t0 : Z) (v : Visibility) (es es' : list Event) :
  Forall no_start es' ->
  let w := after (stop (after (run es (initial t0 v)))) in
  calls probeQuery (effects (run es' w)) = 0%nat /\
  getActive (after (run es' w)) = false /\
  pending AuthRefreshCb (after (run es' w)) = [] /\
  pending ConnectionPingCb (after (run es' w)) = [].
Proof.
  intros Hes w.
  assert (HI : Inv w) by apply Inv_stop, Inv_run, Inv_initial.
  assert (Hact : isActive w = false) by apply stop_fields.
  destruct (stopped_run Hes HI Hact) as [Hp Ha].
  pose proof (inv_stored (Inv_run es' HI)) as Hst. rewrite Ha in Hst.
  destruct Hst as (_ & _ & Hpa & Hpp). auto.
Qed.

Lemma find_by_handle (w : World) (t : Timer) :
  Inv w -> In t (timers w) ->
  find (fun t' => timer_id t' =? timer_id t) (timers w) = Some t.
Proof.
  intros HI Hin.
  destruct (find _ (timers w)) as [t'|] eqn:Hfind.
  - apply find_some in Hfind as [Hin' Hid]. apply Z.eqb_eq in Hid.
    rewrite (@unique_handle _ _ _ (inv_nodup HI) Hin' Hin Hid). reflexivity.
  - apply (find_none _ _ Hfind) in Hin. rewrite Z.eqb_refl in Hin.
    discriminate.
Qed.

Lemma task_effects_quiet (m : M unit) (w : World) :
  completion (m w) = Normal tt -> reactions (after (m w)) = [] ->
  effects (task m w) = effects (m w) /\
  after (task m w) = set_reactions [] (after (m w)).
Proof.
  destruct (m w) as [comp w' es] eqn:Hm. cbn. intros -> Hr.
  rewrite (task_without_reaction _ _ Hm Hr). split; reflexivity.
Qed.

Lemma idle_refresh_runs (c : nat) (o : Oracle) (w : World) :
  reactions w = [] ->
  (Date_now o Line228 - lastActivity w >? 600000)
    && Visibility_eqb (visibilityState w) visible = true ->
  let r := task (idleCheckTick c o) w in
  calls getSession (effects r) = 1%nat /\
  broadcasts (effects r) = [DispatchAppRefresh "idle-refresh" None] /\
  lastActivity (after r) = Date_now o Line247.
Proof.
  intros Hr Hidle r.
  pose proof (idleCheckTick_run c o w) as Hrun. rewrite Hidle, Hr in Hrun.
  destruct (task_with_reaction _ _ Hrun eq_refl) as (_ & Ha & He).
  fold r in Ha, He. rewrite He, Ha. cbn [run_reaction].
  rewrite !calls_app, broadcasts_app.
  match goal with
  | |- context [effects (idleRefreshReaction o ?w')] =>
      destruct (idle_reaction_effects o w') as (-> & _ & _ & _ & -> & _)
  end.
  repeat split.
Qed.

(** X6: [stop()] does not disarm the idle check.  After a [stop()], for every
    [start()] that ever took effect there is still a pending timer running
    its idle check; when it fires on a visible page that has been idle for
    more than 10 minutes it fetches the session, broadcasts [app:refresh]
    with reason "idle-refresh" and resets [lastActivity], although
    [getActive()] is false. *)
Theorem idle_check_survives_stop
    (t0 : Z) (v : Visibility) (es : list Event) (c : nat) (o : Oracle) :
  let w := after (stop (after (run es (initial t0 v)))) in
  (c < List.length (closures w))%nat ->
  Date_now o Line228 - lastActivity w > 10 * 60 * 1000 ->
  visibilityState w = visible ->
  getActive w = false /\
  exists t,
    In t (timers w) /\ timer_callback t = IdleCheckCb c /\
    let r := step (timer_fires (timer_id t) o) w in
    calls getSession (effects r) = 1%nat /\
    broadcasts (effects r) = [DispatchAppRefresh "idle-refresh" None] /\
    getLastActivity (after r) = Date_now o Line247.
Proof.
  intros w Hc Hidle Hvis.
  assert (HI0 : Inv (after (run es (initial t0 v))))
    by apply Inv_run, Inv_initial.
  assert (HT0 : Installed (after (run es (initial t0 v))))
    by (apply Installed_run; [apply Inv_initial|apply Installed_initial]).
  assert (HI : Inv w) by apply Inv_stop, HI0.
  assert (HT : Installed w)
    by (apply (Installed_step call_stop HI0 HT0)).
  assert (Hr : reactions w = []).
  { unfold w. destruct (stop_fields (after (run es (initial t0 v))))
      as (_ & _ & _ & _ & _ & _ & -> & _).
    apply reactions_nil_run. reflexivity. }
  split; [apply stop_fields|].
  assert (Hin : In (IdleCheckCb c)
                   (map timer_callback (filter is_idle_check (timers w)))).
  { rewrite (installed_idle HT). apply in_map, in_seq. lia. }
  apply in_map_iff in Hin as (t & Hcb & Hin).
  apply filter_In in Hin as [Hin _].
  exists t. split; [exact Hin|]. split; [exact Hcb|].
  cbn [step]. rewrite fire_run, (@find_by_handle w t HI Hin), Hcb.
  cbn [timer_body]. apply idle_refresh_runs; [exact Hr|].
  apply idle_spec. split; assumption.
Qed.

Lemma auth_tick_quiet (o : Oracle) (w : World) :
  completion (authRefreshTick o w) = Normal tt /\
  after (authRefreshTick o w) = w /\
  calls getSession (effects (authRefreshTick o w)) = 1%nat.
Proof.
  unfold authRefreshTick. oracle_cases o; step_through;
    try destruct (needs_refresh _); repeat split.
Qed.

Lemma ping_tick_quiet (o : Oracle) (w : World) :
  completion (connectionPingTick o w) = Normal tt /\
  reactions (after (connectionPingTick o w)) = reactions w /\
  calls probeQuery (effects (connectionPingTick o w)) = 1%nat.
Proof.
  unfold connectionPingTick. step_through.
  destruct (race (probe o)) as [[[err|]]|]; cbn; try (repeat split; fail).
  split_code err "PGRST116"%string; cbn; [repeat split|].
  split_code err "TIMEOUT"%string; repeat split.
Qed.

(** X10: while the manager is active, the two handles it holds are live and
    distinct: when the timer named by [authRefreshInterval] fires, exactly the
    auth-refresh tick runs (one [getSession]); when the timer named by
    [connectionPingInterval] fires, exactly the connection-ping tick runs
    (one probe). *)
Theorem stored_handles_run_their_ticks
    (t0 : Z) (v : Visibility) (es : list Event) (o : Oracle) :
  let w := after (run es (initial t0 v)) in
  isActive w = true ->
  exists a p,
    authRefreshInterval w = Some a /\
    connectionPingInterval w = Some p /\
    a <> p /\
    effects (step (timer_fires a o) w) = effects (authRefreshTick o w) /\
    calls getSession (effects (step (timer_fires a o) w)) = 1%nat /\
    effects (step (timer_fires p o) w) = effects (connectionPingTick o w) /\
    calls probeQuery (effects (step (timer_fires p o) w)) = 1%nat.
Proof.
  intros w Hact.
  assert (HI : Inv w) by apply Inv_run, Inv_initial.
  assert (Hr : reactions w = []) by (apply reactions_nil_run; reflexivity).
  pose proof (inv_stored HI) as Hst. rewrite Hact in Hst.
  destruct Hst as (a & p & Ha & Hp & Hpa & Hpp).
  destruct (In_pending _ _ Hpa) as [Hina _].
  destruct (In_pending _ _ Hpp) as [Hinp _].
  pose proof (@find_by_handle w _ HI Hina) as Hfa.
  pose proof (@find_by_handle w _ HI Hinp) as Hfp. cbn [timer_id] in Hfa, Hfp.
  destruct (auth_tick_quiet o w) as (Hca & Haa & Hga).
  destruct (ping_tick_quiet o w) as (Hcp & Hrp & Hpp').
  destruct (task_effects_quiet (authRefreshTick o) w Hca) as [Hea _];
    [rewrite Haa; exact Hr|].
  destruct (task_effects_quiet (connectionPingTick o) w Hcp) as [Hep _];
    [rewrite Hrp; exact Hr|].
  exists a, p. split; [exact Ha|]. split; [exact Hp|]. split.
  { intros ->. rewrite Hfa in Hfp. discriminate. }
  cbn [step]. rewrite !fire_run, Hfa, Hfp. cbn [timer_body timer_callback].
  rewrite Hea, Hep. auto.
Qed.

(** ** Hiding and showing the tab *)

Lemma nth_error_update_nth {A} (n : nat) (f : A -> A) (l : list A) :
  nth_error (update_nth n f l) n = option_map f (nth_error l n).
Proof.
  revert n. induction l as [|x l IH]; intros [|n]; cbn; auto.
Qed.

Lemma onVisibilityChange_hidden
    (c : nat) (o : Oracle) (w : World) (l : VisibilityLocals) :
  visibilityState w = hidden ->
  nth_error (closures w) c = Some l ->
  onVisibilityChange c o w =
    {| completion := Normal tt;
       after := set_lastHiddenTime c (Date_now o Line221) w;
       effects := [] |}.
Proof.
  intros Hv Hl. unfold onVisibilityChange. step_through. rewrite Hv, Hl.
  reflexivity.
Qed.

(** X7: hiding the tab only records the time, with no effect.  When the tab
    is shown again, the listener recovers exactly when the time spent hidden
    exceeds one second or more than 60 seconds have passed since the tab was
    last seen becoming visible (so a sub-second flicker of a tab that has been
    in front for over a minute recovers too); the broadcast carries the time
    between the two events as [hiddenDuration].  Either way the listener then
    remembers the new visible time and keeps the hidden time. *)
Theorem hide_then_show
    (c : nat) (o1 o2 : Oracle) (w : World) (l : VisibilityLocals) :
  reactions w = [] ->
  nth_error (closures w) c = Some l ->
  let hide := task (onVisibilityChange c o1) (set_visibilityState hidden w) in
  let show :=
    task (onVisibilityChange c o2) (set_visibilityState visible (after hide)) in
  let away := Date_now o2 Line185 - Date_now o1 Line221 in
  let since := Date_now o2 Line186 - lastVisibleTime l in
  effects hide = [] /\
  (away > 1000 \/ since > 60000 ->
   calls getSession (effects show) = 1%nat /\
   calls reconnectNow (effects show) = 1%nat /\
   broadcasts (effects show) =
     [DispatchAppRefresh "visibility-change" (Some away)]) /\
  (away <= 1000 -> since <= 60000 -> effects show = []) /\
  nth_error (closures (after show)) c =
    Some {| lastHiddenTime := Date_now o1 Line221;
            lastVisibleTime := Date_now o2 Line219 |}.
Proof.
  intros Hr Hl hide.
  set (w1 := set_visibilityState visible (after hide)).
  intros show away since.
  set (l1 := {| lastHiddenTime := Date_now o1 Line221;
                lastVisibleTime := lastVisibleTime l |}).
  assert (Hhide : hide =
            {| completion := Normal tt;
               after := set_reactions []
                          (set_lastHiddenTime c (Date_now o1 Line221)
                             (set_visibilityState hidden w));
               effects := [] |}).
  { apply task_without_reaction; [|exact Hr].
    apply onVisibilityChange_hidden with (l := l); [reflexivity|exact Hl]. }
  assert (Hr1 : reactions w1 = []) by (unfold w1; rewrite Hhide; reflexivity).
  assert (Hv1 : visibilityState w1 = visible) by reflexivity.
  assert (Hl1 : nth_error (closures w1) c = Some l1).
  { unfold w1. rewrite Hhide. cbn. rewrite nth_error_update_nth, Hl.
    reflexivity. }
  split; [rewrite Hhide; reflexivity|].
  clearbody w1. clear Hhide.
  pose proof (onVisibilityChange_visible c o2 w1 Hv1 Hl1) as Hrun.
  cbn zeta in Hrun. cbn [lastHiddenTime lastVisibleTime l1] in Hrun.
  fold away since in Hrun.
  pose proof (should_recover_spec away since) as Hspec.
  destruct (should_recover away since) eqn:Hrec.
  - destruct (@visibility_recovery c o2 w1 l1 Hr1 Hv1 Hl1 Hrec)
      as (_ & Hg & Hn & Hb & _).
    fold show in Hg, Hn, Hb.
    rewrite Hr1 in Hrun.
    destruct (task_with_reaction _ _ Hrun eq_refl) as (_ & Ha & _).
    fold show in Ha.
    split; [intros _; auto|].
    split; [intros H1 H2; assert (away > 1000 \/ since > 60000)
                            by (apply Hspec; reflexivity); lia|].
    rewrite Ha. cbn. rewrite nth_error_update_nth, Hl1. reflexivity.
  - pose proof (task_without_reaction _ _ Hrun Hr1) as Hshow.
    fold show in Hshow.
    split; [intros H; apply Hspec in H; discriminate|].
    split; [intros _ _; rewrite Hshow; reflexivity|].
    rewrite Hshow. cbn. rewrite nth_error_update_nth, Hl1. reflexivity.
Qed.

(** ** A live probe counts as activity *)

Lemma ping_tick_alive (o : Oracle) (w : World) (site : ClockSite) :
  alive_at o = Some site ->
  lastActivity (after (connectionPingTick o w)) = Date_now o site.
Proof.
  intros Halive.
  destruct (ping_tick_by_cases o w) as [_ Hcase].
  unfold alive_at in Halive.
  destruct (race (probe o)) as [[[err|]]|]; cbn in *; try discriminate.
  - destruct (code_is err "PGRST116"); [|discriminate].
    injection Halive as <-. apply Hcase.
  - injection Halive as <-. apply Hcase.
Qed.

(** [lastActivity] only ever takes a clock reading: with a clock that does not
    go back before [t], it does not either. *)
Lemma lastActivity_not_before_step (t : Z) (e : Event) (w : World) :
  not_before t e -> t <= lastActivity w -> t <= lastActivity (after (step e w)).
Proof.
  set (P := fun w : World => t <= lastActivity w).
  assert (HPr : forall w rs, P w -> P (set_reactions rs w))
    by (intros w0 rs H; exact H).
  assert (Hlisten : forall o cb,
             (forall site, t <= Date_now o site) ->
             preserves P (listener_body cb o)).
  { intros o [|c] Ho w0 H0; cbn [listener_body].
    - unfold updateActivity, modify, P. cbn. apply Ho.
    - unfold onVisibilityChange. step_through.
      destruct (nth_error (closures w0) c) as [l|]; cbn; [|exact H0].
      destruct (Visibility_eqb _ _); cbn; [|exact H0].
      destruct (should_recover _ _); cbn; exact H0. }
  assert (Hdispatch : forall ev o w0,
             (forall site, t <= Date_now o site) ->
             P w0 -> P (after (dispatch ev o w0))).
  { intros ev o w0 Ho H0. rewrite dispatch_after.
    apply (pres_forEach_in (P := P)); [|exact H0].
    intros l _. apply (pres_task (P := P) HPr), Hlisten, Ho. }
  intros He Hw. fold (P w) in Hw. fold (P (after (step e w))).
  destruct e as [o| |id o|ev o|v o];
    [cbn [step]..|rewrite visibility_becomes_after]; cbn [not_before] in He.
  - destruct (isActive w) eqn:Hact.
    + rewrite start_when_active by exact Hact. exact Hw.
    + destruct (start_when_inactive o w Hact)
        as (_ & _ & _ & _ & _ & _ & _ & Hl & _).
      unfold P. rewrite Hl. apply He.
  - destruct (stop_fields w) as (_ & _ & _ & _ & _ & _ & _ & Hl).
    unfold P. rewrite Hl. exact Hw.
  - rewrite fire_run. destruct (find _ (timers w)) as [tm|]; [|exact Hw].
    apply (pres_task (P := P) HPr); [|exact Hw].
    intros w0 H0. destruct (timer_callback tm) as [| |c]; cbn [timer_body].
    + destruct (auth_tick_quiet o w0) as (_ & -> & _). exact H0.
    + destruct (ping_tick_by_cases o w0) as [_ Hcase]. unfold P.
      destruct (race (probe o)) as [[[err|]]|]; cbn [probe_error] in Hcase;
        [destruct (code_is err "PGRST116")| |];
        destruct Hcase as [H1 H2]; rewrite ?H1, ?H2; auto.
    + rewrite idleCheckTick_run. destruct (_ && _); [|exact H0].
      unfold P. cbn. apply He.
  - apply Hdispatch; assumption.
  - apply Hdispatch; [exact He|exact Hw].
Qed.

Lemma lastActivity_not_before_run (t : Z) (es : list Event) (w : World) :
  Forall (not_before t) es -> t <= lastActivity w ->
  t <= lastActivity (after (run es w)).
Proof.
  revert w. induction es as [|e es IH]; intros w Hes Hw; [exact Hw|].
  inversion Hes; subst. destruct (run_cons e es w) as [-> _].
  apply IH; [assumption|]. apply lastActivity_not_before_step; assumption.
Qed.

(** X8: a probe that finds the connection alive sets [lastActivity] to its
    clock reading [t].  Whatever happens next (timers firing, user input,
    visibility changes, [start()] and [stop()] calls) with clock readings not
    before [t], [lastActivity] stays at or after [t]; an idle check that then
    reads the clock at most 10 minutes after [t] has no effect and leaves
    [lastActivity] as it is. *)
Theorem live_probe_postpones_idle_refresh
    (c : nat) (o_ping o_idle : Oracle) (w : World) (site : ClockSite)
    (later : list Event) :
  reactions w = [] ->
  alive_at o_ping = Some site ->
  Forall (not_before (Date_now o_ping site)) later ->
  Date_now o_idle Line228 - Date_now o_ping site <= 10 * 60 * 1000 ->
  let w1 := after (connectionPingTick o_ping w) in
  let w2 := after (run later w1) in
  getLastActivity w1 = Date_now o_ping site /\
  Date_now o_ping site <= getLastActivity w2 /\
  effects (task (idleCheckTick c o_idle) w2) = [] /\
  getLastActivity (after (task (idleCheckTick c o_idle) w2)) =
    getLastActivity w2.
Proof.
  intros Hr Halive Hlater Hsoon w1 w2.
  destruct (ping_tick_quiet o_ping w) as (_ & Hr1 & _). fold w1 in Hr1.
  rewrite Hr in Hr1.
  assert (Hlast : lastActivity w1 = Date_now o_ping site)
    by (apply ping_tick_alive, Halive).
  assert (Hr2 : reactions w2 = []) by (apply reactions_nil_run, Hr1).
  assert (Hlow : Date_now o_ping site <= lastActivity w2).
  { apply lastActivity_not_before_run; [exact Hlater|]. rewrite Hlast. lia. }
  clearbody w2.
  pose proof (idleCheckTick_run c o_idle w2) as Hrun.
  destruct (Z.gtb_spec (Date_now o_idle Line228 - lastActivity w2) 600000)
    as [Hgt|_]; [lia|].
  cbn [andb] in Hrun.
  rewrite (task_without_reaction _ _ Hrun Hr2). cbn.
  unfold getLastActivity. auto.
Qed.

(** ** These statements at work on the sample pages *)

Lemma activity_event_records_time_witness :
  getLastActivity
    (after (step (user_input click after_65_seconds)
              (after (run loaded_hidden (initial sample_now hidden))))) =
  sample_now + 65000.
Proof.
  destruct (@activity_event_records_time sample_now hidden loaded_hidden
              click after_65_seconds) as (_ & _ & _ & _ & H & _).
  - cbn. auto 10.
  - apply H. discriminate.
Defined.

Lemma restarts_multiply_recovery_witness :
  List.length
    (broadcasts
       (effects (step (visibility_becomes visible after_65_seconds)
                   (after (run (cycles 2 probe_hangs)
                             (initial sample_now hidden)))))) = 2%nat.
Proof.
  destruct (@restarts_multiply_recovery sample_now hidden [] 2 probe_hangs
              after_65_seconds) as (_ & _ & H & _).
  - constructor.
  - reflexivity.
  - exact H.
Defined.

Lemma no_probe_while_stopped_witness :
  calls probeQuery
    (effects
       (run [timer_fires 2 probe_hangs; user_input click probe_hangs;
             timer_fires 3 after_11_minutes]
          (after (stop (after (run loaded_hidden
                                 (initial sample_now visible))))))) = 0%nat.
Proof.
  apply (@no_probe_while_stopped sample_now visible loaded_hidden
           [timer_fires 2 probe_hangs; user_input click probe_hangs;
            timer_fires 3 after_11_minutes]).
  repeat constructor.
Defined.

Lemma idle_check_survives_stop_witness :
  exists t,
    In t (timers (after (stop (after (run loaded_hidden
                                        (initial sample_now visible)))))) /\
    timer_callback t = IdleCheckCb 0 /\
    broadcasts
      (effects
         (step (timer_fires (timer_id t) after_11_minutes)
            (after (stop (after (run loaded_hidden
                                   (initial sample_now visible))))))) =
    [DispatchAppRefresh "idle-refresh" None].
Proof.
  destruct (@idle_check_survives_stop sample_now visible loaded_hidden 0
              after_11_minutes) as (_ & t & Hin & Hcb & _ & Hb & _).
  - cbn. lia.
  - reflexivity.
  - reflexivity.
  - exists t. auto.
Defined.

Lemma hide_then_show_witness :
  broadcasts
    (effects
       (task (onVisibilityChange 0 after_65_seconds)
          (set_visibilityState visible
             (after (task (onVisibilityChange 0 probe_hangs)
                       (set_visibilityState hidden started)))))) =
  [DispatchAppRefresh "visibility-change" (Some 65000)].
Proof.
  destruct (@hide_then_show 0 probe_hangs after_65_seconds started
              _ eq_refl eq_refl) as (_ & H & _).
  apply H. left. reflexivity.
Defined.

Lemma live_probe_postpones_idle_refresh_witness :
  getLastActivity
    (after (connectionPingTick (next_probe answers_in_time) started)) =
    sample_now + 15000 /\
  effects
    (task (idleCheckTick 0 ten_minutes_after_probe)
       (after
          (run away_for_a_minute
             (after (connectionPingTick (next_probe answers_in_time)
                       started))))) = [].
Proof.
  destruct (@live_probe_postpones_idle_refresh 0
              (next_probe answers_in_time) ten_minutes_after_probe started
              Line166 away_for_a_minute eq_refl eq_refl)
    as (Hlast & _ & Hquiet & _).
  - repeat constructor; intros site; cbn; lia.
  - cbn. lia.
  - split; [exact Hlast|exact Hquiet].
Defined.

Lemma auth_tick_profile_witness :
  fetch_reports_error fetch_fails = true /\
  no_escalation (effects (authRefreshTick fetch_fails started)).
Proof.
  split; [reflexivity|].
  destruct (auth_tick_profile fetch_fails started) as (_ & _ & _ & H & _).
  apply H. reflexivity.
Defined.

Lemma stored_handles_run_their_ticks_witness :
  exists a p,
    authRefreshInterval started = Some a /\
    connectionPingInterval started = Some p /\
    a <> p /\
    calls probeQuery (effects (step (timer_fires p probe_hangs) started)) =
      1%nat.
Proof.
  destruct (@stored_handles_run_their_ticks sample_now visible
              [call_start (answers sample_now None None None)] probe_hangs
              eq_refl) as (a & p & Ha & Hp & Hne & _ & _ & _ & H).
  exists a, p. auto.
Defined.

(** ** Exactly when the user is logged out *)

(** X11: the auth-refresh tick calls [performCompleteLogout] (once) exactly
    when a session is due for a refresh, [refreshSession] resolves with an
    error and the logout utilities load; it calls [forceRedirectToHome]
    (once) exactly when, in addition, the logout completes: a rejected logout
    leaves the user on the page.  The reaction of the visibility listener
    does the same with "a session was fetched" in place of "a session is
    due". *)
Theorem escalation_exactly_when (o : Oracle) (w : World) :
  let tick := effects (authRefreshTick o w) in
  let shown := effects (visibilityRefreshReaction o w) in
  calls performCompleteLogout tick =
    (if due_for_refresh o && refresh_reports_error o && import_loads o
     then 1 else 0)%nat /\
  calls forceRedirectToHome tick =
    (if due_for_refresh o && refresh_reports_error o && import_loads o
        && logout_completes o
     then 1 else 0)%nat /\
  calls performCompleteLogout shown =
    (if session_fetched o && refresh_reports_error o && import_loads o
     then 1 else 0)%nat /\
  calls forceRedirectToHome shown =
    (if session_fetched o && refresh_reports_error o && import_loads o
        && logout_completes o
     then 1 else 0)%nat.
Proof.
  unfold authRefreshTick, visibilityRefreshReaction, due_for_refresh,
    session_fetched, refresh_reports_error, import_loads, logout_completes.
  oracle_cases o; step_through;
    try destruct (needs_refresh _); cbn; repeat split.
Qed.

(** ** One event, every listener *)

(** What one visibility listener does when the document has become
    visible. *)
Lemma listener_recovery_iff
    (c : nat) (o : Oracle) (w : World) (l : VisibilityLocals) :
  reactions w = [] ->
  visibilityState w = visible ->
  nth_error (closures w) c = Some l ->
  let hiddenDuration := Date_now o Line185 - lastHiddenTime l in
  let timeSinceLastVisible := Date_now o Line186 - lastVisibleTime l in
  let qualifies := hiddenDuration > 1000 \/ timeSinceLastVisible > 60000 in
  let r := task (onVisibilityChange c o) w in
  let es := effects r in
  (qualifies <-> calls getSession es = 1%nat) /\
  (qualifies <-> calls reconnectNow es = 1%nat) /\
  (qualifies <->
   broadcasts es =
     [DispatchAppRefresh "visibility-change" (Some hiddenDuration)]) /\
  (qualifies ->
   calls refreshSession es = (if session_fetched o then 1 else 0)%nat) /\
  (~ qualifies -> es = []) /\
  closures (after r) =
    update_nth c
      (fun l' => {| lastHiddenTime := lastHiddenTime l';
                    lastVisibleTime := Date_now o Line219 |})
      (closures w) /\
  nth_error (closures (after r)) c =
    Some {| lastHiddenTime := lastHiddenTime l;
            lastVisibleTime := Date_now o Line219 |}.
Proof.
  intros Hr Hv Hl hd tv qualifies r es.
  pose proof (should_recover_spec hd tv) as Hspec. fold qualifies in Hspec.
  pose proof (onVisibilityChange_visible c o w Hv Hl) as Hrun.
  cbn zeta in Hrun. fold hd tv in Hrun.
  assert (Hnth : forall cl,
             cl = update_nth c
                    (fun l' => {| lastHiddenTime := lastHiddenTime l';
                                  lastVisibleTime := Date_now o Line219 |})
                    (closures w) ->
             nth_error cl c =
               Some {| lastHiddenTime := lastHiddenTime l;
                       lastVisibleTime := Date_now o Line219 |}).
  { intros cl ->. rewrite nth_error_update_nth, Hl. reflexivity. }
  destruct (should_recover hd tv) eqn:Hrec.
  - assert (Hq : qualifies) by (apply Hspec; reflexivity).
    destruct (visibility_recovery c o w Hr Hv Hl Hrec) as (_ & Hg & Hn & Hb & Hf).
    fold r es hd in Hg, Hn, Hb, Hf.
    rewrite Hr in Hrun.
    destruct (task_with_reaction _ _ Hrun eq_refl) as (_ & Ha & _).
    fold r in Ha.
    assert (Hcl : closures (after r) =
                  update_nth c
                    (fun l' => {| lastHiddenTime := lastHiddenTime l';
                                  lastVisibleTime := Date_now o Line219 |})
                    (closures w)) by (rewrite Ha; reflexivity).
    split; [tauto|]. split; [tauto|]. split; [tauto|]. split; [tauto|].
    split; [tauto|]. split; [exact Hcl|apply Hnth, Hcl].
  - assert (Hq : ~ qualifies) by (intros H; apply Hspec in H; discriminate).
    pose proof (task_without_reaction _ _ Hrun Hr) as Htask. fold r in Htask.
    assert (Hes : es = []) by (unfold es; rewrite Htask; reflexivity).
    assert (Hcl : closures (after r) =
                  update_nth c
                    (fun l' => {| lastHiddenTime := lastHiddenTime l';
                                  lastVisibleTime := Date_now o Line219 |})
                    (closures w)) by (rewrite Htask; reflexivity).
    rewrite Hes.
    split; [split; [contradiction|discriminate]|].
    split; [split; [contradiction|discriminate]|].
    split; [split; [contradiction|discriminate]|].
    split; [contradiction|]. split; [reflexivity|].
    split; [exact Hcl|apply Hnth, Hcl].
Qed.

(** On a page with one visibility listener, a [visibilitychange] event runs
    that listener and nothing else. *)
Lemma single_listener_event
    (v : Visibility) (o : Oracle) (w : World) (l : VisibilityLocals) :
  Installed w -> closures w = [l] ->
  effects (step (visibility_becomes v o) w) =
    effects (task (onVisibilityChange 0 o) (set_visibilityState v w)) /\
  after (step (visibility_becomes v o) w) =
    after (task (onVisibilityChange 0 o) (set_visibilityState v w)).
Proof.
  intros Hinst Hcl.
  rewrite visibility_becomes_effects, visibility_becomes_after,
    dispatch_effects, dispatch_after.
  set (w' := set_visibilityState v w).
  assert (Hinst' : Installed w') by (destruct Hinst; constructor; assumption).
  rewrite (visibility_listeners Hinst').
  replace (closures w') with [l] by (symmetry; exact Hcl).
  cbn [List.length seq map].
  set (x := {| listens_to := visibilitychange;
               listener_callback := VisibilityCb 0 |}).
  set (f := fun l0 : Listener =>
              task (listener_body (listener_callback l0) o)).
  assert (Hc : completion (f x w') = Normal tt).
  { destruct (safe_task (safe_onVisibilityChange 0 o) w') as [[[] H] _].
    exact H. }
  destruct (forEach_cons f x [] w' Hc) as [Ha He].
  rewrite Ha, He. cbn [forEach]. unfold ret. cbn [effects after].
  rewrite app_nil_r. split; reflexivity.
Qed.

(** C6 (amended): when the document becomes visible, each visibility listener
    the manager has installed recovers exactly when its [hiddenDuration]
    exceeds 1 second or its [timeSinceLastVisible] exceeds 60 seconds.
    Recovering is: one session refresh started (one [getSession], then one
    [refreshSession] once it yields a session), one [reconnectNow], and one
    [app:refresh] broadcast with reason "visibility-change" carrying
    [hiddenDuration]; a listener that does not recover does nothing.  Either
    way the listener then holds the clock reading of line 219 as its
    [lastVisibleTime] and keeps its [lastHiddenTime].  On a page where
    [start()] took effect once, so that there is one listener, all of this
    holds of the event itself, after any history: exactly one session-refresh
    attempt and one broadcast per qualifying event. *)
Theorem visibility_recovery_iff :
  (forall (c : nat) (o : Oracle) (w : World) (l : VisibilityLocals),
      reactions w = [] ->
      visibilityState w = visible ->
      nth_error (closures w) c = Some l ->
      let hiddenDuration := Date_now o Line185 - lastHiddenTime l in
      let timeSinceLastVisible := Date_now o Line186 - lastVisibleTime l in
      let qualifies :=
        hiddenDuration > 1000 \/ timeSinceLastVisible > 60000 in
      let r := task (onVisibilityChange c o) w in
      let es := effects r in
      (qualifies <-> calls getSession es = 1%nat) /\
      (qualifies <-> calls reconnectNow es = 1%nat) /\
      (qualifies <->
       broadcasts es =
         [DispatchAppRefresh "visibility-change" (Some hiddenDuration)]) /\
      (qualifies ->
       calls refreshSession es = (if session_fetched o then 1 else 0)%nat) /\
      (~ qualifies -> es = []) /\
      nth_error (closures (after r)) c =
        Some {| lastHiddenTime := lastHiddenTime l;
                lastVisibleTime := Date_now o Line219 |}) /\
  (forall (t0 : Z) (v : Visibility) (history : list Event) (o : Oracle)
          (l : VisibilityLocals),
      let w := after (run history (initial t0 v)) in
      closures w = [l] ->
      let hiddenDuration := Date_now o Line185 - lastHiddenTime l in
      let timeSinceLastVisible := Date_now o Line186 - lastVisibleTime l in
      let qualifies :=
        hiddenDuration > 1000 \/ timeSinceLastVisible > 60000 in
      let r := step (visibility_becomes visible o) w in
      let es := effects r in
      (qualifies <-> calls getSession es = 1%nat) /\
      (qualifies <-> calls reconnectNow es = 1%nat) /\
      (qualifies <->
       broadcasts es =
         [DispatchAppRefresh "visibility-change" (Some hiddenDuration)]) /\
      (qualifies ->
       calls refreshSession es = (if session_fetched o then 1 else 0)%nat) /\
      (~ qualifies -> es = []) /\
      closures (after r) =
        [{| lastHiddenTime := lastHiddenTime l;
            lastVisibleTime := Date_now o Line219 |}]).
Proof.
  split.
  - intros c o w l Hr Hv Hl.
    destruct (@listener_recovery_iff c o w l Hr Hv Hl)
      as (H1 & H2 & H3 & H4 & H5 & _ & H7).
    repeat (split; [assumption|]). exact H7.
  - intros t0 v history o l w Hcl hd tv qualifies r es.
    assert (Hinst : Installed w)
      by (apply Installed_run; [apply Inv_initial|apply Installed_initial]).
    assert (Hr : reactions w = []) by (apply reactions_nil_run; reflexivity).
    destruct (single_listener_event visible o Hinst Hcl) as [He Ha].
    fold r in He, Ha. fold es in He.
    set (w' := set_visibilityState visible w) in *.
    assert (Hl : nth_error (closures w') 0 = Some l)
      by (unfold w'; cbn; rewrite Hcl; reflexivity).
    destruct (@listener_recovery_iff 0 o w' l Hr eq_refl Hl)
      as (H1 & H2 & H3 & H4 & H5 & H6 & _).
    rewrite <- He in H1, H2, H3, H4, H5. rewrite <- Ha in H6.
    fold hd tv qualifies in H1, H2, H3, H4, H5.
    repeat (split; [assumption|]).
    rewrite H6. unfold w'. cbn. rewrite Hcl. reflexivity.
Qed.

(** C6 as stated fails: after [start()], [stop()], [start()] the manager is
    running with one timer of each kind and the document holds two visibility
    listeners.  The tab is hidden and shown again 65 seconds later: this one
    event makes both listeners recover, with two session-refresh attempts,
    two [reconnectNow] calls and two broadcasts. *)
Lemma one_event_two_recoveries :
  getActive (after (run restarted_then_hidden (initial sample_now visible))) =
    true /\
  List.length
    (closures (after (run restarted_then_hidden (initial sample_now visible)))) =
    2%nat /\
  calls getSession
    (effects
       (step tab_shown
          (after (run restarted_then_hidden (initial sample_now visible))))) =
    2%nat /\
  calls refreshSession
    (effects
       (step tab_shown
          (after (run restarted_then_hidden (initial sample_now visible))))) =
    2%nat /\
  calls reconnectNow
    (effects
       (step tab_shown
          (after (run restarted_then_hidden (initial sample_now visible))))) =
    2%nat /\
  broadcasts
    (effects
       (step tab_shown
          (after (run restarted_then_hidden (initial sample_now visible))))) =
    [DispatchAppRefresh "visibility-change" (Some 65000);
     DispatchAppRefresh "visibility-change" (Some 65000)].
Proof. vm_compute. repeat split. Qed.

Lemma visibility_recovery_iff_witness :
  calls getSession
    (effects (task (onVisibilityChange 0 after_65_seconds) shown_again)) =
    1%nat /\
  nth_error
    (closures (after (task (onVisibilityChange 0 after_65_seconds) shown_again)))
    0 = Some {| lastHiddenTime := sample_now;
                lastVisibleTime := sample_now + 65000 |} /\
  calls refreshSession
    (effects
       (step tab_shown
          (after (run started_then_hidden (initial sample_now visible))))) =
    1%nat /\
  broadcasts
    (effects
       (step tab_shown
          (after (run started_then_hidden (initial sample_now visible))))) =
    [DispatchAppRefresh "visibility-change" (Some 65000)].
Proof.
  destruct visibility_recovery_iff as [Hlistener Hevent].
  destruct (Hlistener 0%nat after_65_seconds shown_again
              {| lastHiddenTime := sample_now; lastVisibleTime := sample_now |}
              eq_refl eq_refl eq_refl) as (Hg & _ & _ & _ & _ & Hc).
  split; [apply Hg; left; reflexivity|]. split; [exact Hc|].
  destruct (Hevent sample_now visible started_then_hidden after_65_seconds
              {| lastHiddenTime := sample_now; lastVisibleTime := sample_now |}
              eq_refl) as (_ & _ & Hb & Hf & _).
  split; [apply Hf|apply Hb]; left; reflexivity.
Defined.
